(** * ops-cli: the terraform runner ([src/ops/cli/terraform.py])

    A shallow embedding of [TerraformRunner] and of the library calls it
    makes, followed by the properties of the composition sequencer. *)

From Stdlib Require Import ZArith String Ascii List Lia Bool.
From stdpp Require Import base option list gmap strings fin_maps pretty.

Local Open Scope Z_scope.
Local Set Warnings "-register-all".

(* ===================================================================== *)
(** ** [hashlib.md5]: RFC 1321 over bytes held as [Z] *)
(* ===================================================================== *)

Module MD5.

Definition add32 (x y : Z) : Z := (x + y) mod 2 ^ 32.

Definition not32 (x : Z) : Z := Z.lxor x 0xffffffff.

Definition rotl32 (x c : Z) : Z :=
  Z.lor (Z.shiftl x c mod 2 ^ 32) (Z.shiftr x (32 - c)).

(** floor(2^32 * |sin(i+1)|), i = 0..63 *)
Definition K : list Z :=
  [ 0xd76aa478; 0xe8c7b756; 0x242070db; 0xc1bdceee;
    0xf57c0faf; 0x4787c62a; 0xa8304613; 0xfd469501;
    0x698098d8; 0x8b44f7af; 0xffff5bb1; 0x895cd7be;
    0x6b901122; 0xfd987193; 0xa679438e; 0x49b40821;
    0xf61e2562; 0xc040b340; 0x265e5a51; 0xe9b6c7aa;
    0xd62f105d; 0x02441453; 0xd8a1e681; 0xe7d3fbc8;
    0x21e1cde6; 0xc33707d6; 0xf4d50d87; 0x455a14ed;
    0xa9e3e905; 0xfcefa3f8; 0x676f02d9; 0x8d2a4c8a;
    0xfffa3942; 0x8771f681; 0x6d9d6122; 0xfde5380c;
    0xa4beea44; 0x4bdecfa9; 0xf6bb4b60; 0xbebfbc70;
    0x289b7ec6; 0xeaa127fa; 0xd4ef3085; 0x04881d05;
    0xd9d4d039; 0xe6db99e5; 0x1fa27cf8; 0xc4ac5665;
    0xf4292244; 0x432aff97; 0xab9423a7; 0xfc93a039;
    0x655b59c3; 0x8f0ccc92; 0xffeff47d; 0x85845dd1;
    0x6fa87e4f; 0xfe2ce6e0; 0xa3014314; 0x4e0811a1;
    0xf7537e82; 0xbd3af235; 0x2ad7d2bb; 0xeb86d391 ].

(** per-round left-rotation amounts *)
Definition R : list Z :=
  [ 7; 12; 17; 22; 7; 12; 17; 22; 7; 12; 17; 22; 7; 12; 17; 22;
    5; 9; 14; 20; 5; 9; 14; 20; 5; 9; 14; 20; 5; 9; 14; 20;
    4; 11; 16; 23; 4; 11; 16; 23; 4; 11; 16; 23; 4; 11; 16; 23;
    6; 10; 15; 21; 6; 10; 15; 21; 6; 10; 15; 21; 6; 10; 15; 21 ].

(** the [n] low bytes of [x], least significant first *)
Fixpoint le_bytes (n : nat) (x : Z) : list Z :=
  match n with
  | O => []
  | S n' => x mod 256 :: le_bytes n' (x / 256)
  end.

Fixpoint le_word (bs : list Z) : Z :=
  match bs with
  | [] => 0
  | b :: bs' => b + 256 * le_word bs'
  end.

Definition pad (msg : list Z) : list Z :=
  let len := Z.of_nat (length msg) in
  msg ++ [0x80] ++ repeat 0 (Z.to_nat ((55 - len) mod 64))
      ++ le_bytes 8 ((8 * len) mod 2 ^ 64).

Fixpoint chunks (fuel : nat) (n : nat) (l : list Z) : list (list Z) :=
  match fuel with
  | O => []
  | S fuel' =>
      match l with
      | [] => []
      | _ => firstn n l :: chunks fuel' n (skipn n l)
      end
  end.

Definition words (block : list Z) : list Z :=
  map le_word (chunks 16 4 block).

Definition state : Type := Z * Z * Z * Z.

Definition init : state :=
  (0x67452301, 0xefcdab89, 0x98badcfe, 0x10325476).

Definition step (M : list Z) (st : state) (i : nat) : state :=
  let '(a, b, c, d) := st in
  let '(f, g) :=
    if (i <? 16)%nat then
      (Z.lor (Z.land b c) (Z.land (not32 b) d), i)
    else if (i <? 32)%nat then
      (Z.lor (Z.land d b) (Z.land (not32 d) c), ((5 * i + 1) mod 16)%nat)
    else if (i <? 48)%nat then
      (Z.lxor (Z.lxor b c) d, ((3 * i + 5) mod 16)%nat)
    else
      (Z.lxor c (Z.lor b (not32 d)), ((7 * i) mod 16)%nat) in
  let f' := add32 (add32 (add32 f a) (nth i K 0)) (nth g M 0) in
  (d, add32 b (rotl32 f' (nth i R 0)), b, c).

Definition compress (st : state) (block : list Z) : state :=
  let '(a0, b0, c0, d0) := st in
  let '(a, b, c, d) := fold_left (step (words block)) (seq 0 64) st in
  (add32 a0 a, add32 b0 b, add32 c0 c, add32 d0 d).

Definition digest (msg : list Z) : list Z :=
  let padded := pad msg in
  let '(a, b, c, d) :=
    fold_left compress (chunks (length padded) 64 padded) init in
  le_bytes 4 a ++ le_bytes 4 b ++ le_bytes 4 c ++ le_bytes 4 d.

Definition hex_digit (n : Z) : ascii :=
  nth (Z.to_nat n)
      (list_ascii_of_string "0123456789abcdef") "0"%char.


Definition hex_byte (b : Z) : list ascii :=
  [hex_digit (b / 16); hex_digit (b mod 16)].

Definition hex (bs : list Z) : string :=
  string_of_list_ascii (flat_map hex_byte bs).

(** [s.encode('utf-8')]: Python text is held here as its UTF-8 encoding,
    one [ascii] per byte, so encoding is the byte view of the string. *)
Definition encode_utf8 (s : string) : list Z :=
  map (fun c => Z.of_N (N_of_ascii c)) (list_ascii_of_string s).

(** [hashlib.md5(b).hexdigest()] *)
Definition hexdigest (bs : list Z) : string := hex (digest bs).

End MD5.

(* ===================================================================== *)
(** ** Python values, exceptions and the few builtins the runner uses *)
(* ===================================================================== *)

(** A configuration value as the YAML loader produces it. A float is held
    by its [repr] text, which is all the runner ever asks of one. *)
Inductive value : Type :=
| VNone
| VBool (b : bool)
| VInt (n : Z)
| VFloat (text : string)
| VStr (s : string)
| VList (l : list value)
| VDict (d : gmap string value).

Inductive exn : Type :=
| KeyError (key : string)
| TypeError
| VersionIncompatible (current minimum : string)
| Exception (msg : string).

Inductive result (A : Type) : Type :=
| Ok (a : A)
| Raise (e : exn).
Arguments Ok {A} a.
Arguments Raise {A} e.

(** [needle in haystack] on two [str] *)
Fixpoint str_contains (needle haystack : string) : bool :=
  String.prefix needle haystack
  || match haystack with
     | EmptyString => false
     | String _ rest => str_contains needle rest
     end.

(** [s[:n]] *)
Fixpoint str_take (n : nat) (s : string) : string :=
  match n, s with
  | S n', String c s' => String c (str_take n' s')
  | _, _ => EmptyString
  end.

Fixpoint str_endswith_sep (s : string) : bool :=
  match s with
  | EmptyString => false
  | String c EmptyString => Ascii.eqb c "/"
  | String _ s' => str_endswith_sep s'
  end.

(** [posixpath.join(a, b)] *)
Definition os_path_join (a b : string) : string :=
  if String.prefix "/" b then b
  else if String.eqb a "" || str_endswith_sep a then a +:+ b
  else a +:+ "/" +:+ b.

(** [k in v] for a [str] key [k] *)
Definition py_contains (k : string) (v : value) : result bool :=
  match v with
  | VDict d => Ok (bool_decide (is_Some (d !! k)))
  | VStr s => Ok (str_contains k s)
  | VList l =>
      Ok (existsb (fun x => match x with
                            | VStr s => String.eqb s k
                            | _ => false
                            end) l)
  | VNone | VBool _ | VInt _ | VFloat _ => Raise TypeError
  end.

(** [v[k]] for a [str] key [k] *)
Definition py_getitem (v : value) (k : string) : result value :=
  match v with
  | VDict d =>
      match d !! k with
      | Some x => Ok x
      | None => Raise (KeyError k)
      end
  | _ => Raise TypeError
  end.

(** [len(l) == 0] *)
Definition len_is_zero {A} (l : list A) : bool := (length l =? 0)%nat.

(* ===================================================================== *)
(** ** The runner *)
(* ===================================================================== *)

(** The argparse namespace built by [TerraformParserConfig.configure]. The
    runner reads [subcommand] and [terraform_path]; the other fields travel
    to the command generator untouched. *)
Record Args : Type := {
  subcommand : string;
  var : string;
  module : option string;
  resource : option string;
  name : option string;
  plan : bool;
  state_location : string;
  force_copy : bool;
  template_location : option string;
  do_refresh : bool;
  raw_plan_output : bool;
  path_name : option string;
  terraform_path : option string;
  skip_plan : bool;
  auto_approve : bool;
  terraform_args : list string
}.

(** What [os.path] can find at a path. *)
Inductive file_kind : Type := RegularFile | Directory.

(** The short identity derived from a configuration path:
    [hashlib.md5(path.encode('utf-8')).hexdigest()[:6]]. *)
Definition cluster_id (path : string) : string :=
  str_take 6 (MD5.hexdigest (MD5.encode_utf8 path)).


(** *** Sample collaborators, for running the model on concrete inputs *)

(** A dotted-decimal version order. *)
Fixpoint version_fields (s : string) (cur : N) : list N :=
  match s with
  | EmptyString => [cur]
  | String c s' =>
      if Ascii.eqb c "." then cur :: version_fields s' 0%N
      else version_fields s' (10 * cur + (N_of_ascii c - 48))%N
  end.

Fixpoint fields_lt (a b : list N) : bool :=
  match a, b with
  | [], [] => false
  | [], _ :: _ => true
  | _ :: _, [] => false
  | x :: a', y :: b' => (x <? y)%N || ((x =? y)%N && fields_lt a' b')
  end.

Definition dotted_version_lt (a b : string) : bool :=
  fields_lt (version_fields a 0%N) (version_fields b 0%N).

Definition sample_args (subcmd : string) : Args :=
  {| subcommand := subcmd; var := ""; module := None; resource := None;
     name := None; plan := false; state_location := "any";
     force_copy := false; template_location := None; do_refresh := true;
     raw_plan_output := false; path_name := None; terraform_path := None;
     skip_plan := false; auto_approve := false; terraform_args := [] |}.

Definition sample_conf (min_version : option value) : gmap string value :=
  <["env" := VStr "dev"]>
    (<["terraform" :=
         VDict (match min_version with
                | Some v => <["ops_min_version" := v]> ∅
                | None => ∅
                end)]> ∅).

Definition sample_order : list string := ["network"; "compute"; "data"].

Definition sample_orders : value :=
  VDict (<["terraform" := VList (map VStr sample_order)]> ∅).

Definition sample_section : value :=
  VDict (<["order" := sample_orders]>
           (<["excluded_config_keys" := VList []]> ∅)).

Definition sample_ops_config : value :=
  VDict (<["compositions" := sample_section]> ∅).

Definition sample_root : string := "data/cluster=demo".

Definition sample_cp : string := "data/cluster=demo/".

Definition sample_tp : string := "../ee-k8s-infra/compositions/terraform/".

(** Three units under [sample_root], none anywhere else. *)
Definition sample_resolver (order excluded : value) (config_path : string)
    (reverse : bool) : list string :=
  if String.eqb config_path "data/cluster=demo/" then
    if reverse then rev sample_order else sample_order
  else [].

Definition sample_fs (path : string) : option file_kind :=
  if String.eqb path sample_root then Some Directory
  else if String.eqb path "clusters/qe1.yaml" then Some RegularFile
  else None.

(** The command is the working directory the tool would run in. *)
Definition sample_generate (args : Args) (config : gmap string value)
  : string :=
  match config !! "terraform" with
  | Some (VDict d) =>
      match d !! "path" with
      | Some (VStr path) => subcommand args +:+ " " +:+ path
      | _ => subcommand args
      end
  | _ => subcommand args
  end.

Definition sample_render_ok (n : nat) (config_path terraform_path
    composition : string) : option exn := None.

Definition sample_render_fails_at (k : nat) (n : nat) (config_path
    terraform_path composition : string) : option exn :=
  if (n =? k)%nat then Some (Exception "template error") else None.

Definition sample_status_all_zero (n : nat) (command : string) : Z := 0.

Definition sample_status_fails_at (k : nat) (n : nat) (command : string)
  : Z :=
  if (n =? k)%nat then 1 else 0.

Definition sample_repr (v : value) : string := "?".

Section Runner.

(** The command object built by [TerraformCommandGenerator.generate]. *)
Variable Command : Type.

(** Everything the runner does to the outside, in program order. *)
Inductive event : Type :=
| SetEnv (key val : string)
| IsDir (path : string)
| GetSortedCompositions (order excluded : value) (config_path : string)
                        (reverse : bool)
| GenerateFiles (config_path terraform_path composition : string)
| Generate (args : Args) (config : gmap string value)
| Execute (command : Command)
| LogSetEnv (path : string)
| LogRunning (composition : string)
| LogSkipping (subcmd composition : string)
| LogFailed (composition : string).

(** The mutable part of the process: [os.environ], the [conf] mapping of
    the one [ClusterConfig] object the runner holds, and the effects so
    far. *)
Record World : Type := {
  environ : gmap string string;
  conf : gmap string value;
  trace : list event
}.

(** A computation that may raise; the world survives the exception. *)
Definition M (A : Type) : Type := World -> result A * World.

#[local] Instance M_ret : MRet M := fun A a w => (Ok a, w).

#[local] Instance M_bind : MBind M := fun A B f m w =>
  match m w with
  | (Ok a, w') => f a w'
  | (Raise e, w') => (Raise e, w')
  end.

Definition raise {A} (e : exn) : M A := fun w => (Raise e, w).

Definition lift {A} (r : result A) : M A := fun w => (r, w).

Definition emit (e : event) : M unit := fun w =>
  (Ok tt, {| environ := environ w; conf := conf w;
             trace := trace w ++ [e] |}).

Definition get_conf : M (gmap string value) := fun w => (Ok (conf w), w).

Definition get_trace : M (list event) := fun w => (Ok (trace w), w).

(** [os.environ.get(key, dflt)] *)
Definition environ_get (key dflt : string) : M string := fun w =>
  (Ok (default dflt (environ w !! key)), w).

(** [os.environ[key] = val] *)
Definition environ_set (key val : string) : M unit := fun w =>
  (Ok tt, {| environ := <[key := val]> (environ w); conf := conf w;
             trace := trace w ++ [SetEnv key val] |}).

(** Modelled from the spec: [ClusterConfig.__setitem__] is not under src/;
    the spec's data model makes ClusterConfig a mapping from string keys
    to nested values, so [config[key] = v] stores into [conf]. *)
Definition config_setitem (key : string) (v : value) : M unit := fun w =>
  (Ok tt, {| environ := environ w; conf := <[key := v]> (conf w);
             trace := trace w |}).

(** Modelled from the spec: [ClusterConfig.__getitem__] is not under src/
    either and reads [conf] for the same reason. [config[key][sub] = v] is
    that lookup followed by item assignment on the object found, which only
    a [dict] accepts for a [str] key. *)
Definition config_setitem_in (key sub : string) (v : value) : M unit :=
  fun w =>
    match conf w !! key with
    | None => (Raise (KeyError key), w)
    | Some (VDict d) =>
        (Ok tt, {| environ := environ w;
                   conf := <[key := VDict (<[sub := v]> d)]> (conf w);
                   trace := trace w |})
    | Some _ => (Raise TypeError, w)
    end.

Definition is_execute (e : event) : bool :=
  match e with Execute _ => true | _ => false end.

Definition is_generate_files (e : event) : bool :=
  match e with GenerateFiles _ _ _ => true | _ => false end.

(** ** Collaborators and the runner's fields *)

(** [self.cluster_config_path] *)
Variable cluster_config_path : string.
(** [self.ops_config.terraform_config_path] *)
Variable terraform_config_path : string.
(** [self.cluster_config.ops_config.config] *)
Variable ops_config_config : value.
(** the file system seen by [os.path.isdir] *)
Variable fs : string -> option file_kind.
(** the installed version of the orchestrator and the version order *)
Variable current_ops_version : string.
Variable version_lt : string -> string -> bool.
(** [repr] of a list or a dict *)
Variable container_repr : value -> string.
(** [TerraformConfigGenerator(order, excluded).get_sorted_compositions] *)
Variable get_sorted_compositions :
  value -> value -> string -> bool -> list string.
(** [TerraformConfigGenerator.generate_files]: what its [n]-th call
    raises, if anything *)
Variable generate_files_raises :
  nat -> string -> string -> string -> option exn.
(** [TerraformCommandGenerator(root_dir, config, inventory_generator,
    ops_config, template).generate(args)] *)
Variable generate : Args -> gmap string value -> Command.
(** [self.execute]: the exit status of its [n]-th call *)
Variable execute_status : nat -> Command -> Z.

(** [str(v)] *)
Definition py_str (v : value) : string :=
  match v with
  | VNone => "None"
  | VBool true => "True"
  | VBool false => "False"
  | VInt n => pretty n
  | VFloat text => text
  | VStr s => s
  | VList _ | VDict _ => container_repr v
  end.

(** [os.path.isdir(path)] *)
Definition os_path_isdir (path : string) : M bool :=
  emit (IsDir path);;
  mret (match fs path with Some Directory => true | _ => false end).

(** Modelled from the spec: [ops.validate_ops_version] is not under src/;
    the spec has the version gate fail with VersionIncompatible when the
    declared minimum is strictly greater than the running version, the
    comparison itself being a collaborator. *)
Definition validate_ops_version (min_ops_version : string) : M unit :=
  if version_lt current_ops_version min_ops_version
  then raise (VersionIncompatible current_ops_version min_ops_version)
  else mret tt.

Definition tf_generate_files (config_path terraform_path composition : string)
  : M unit :=
  tr ← get_trace;
  emit (GenerateFiles config_path terraform_path composition);;
  match generate_files_raises (length (List.filter is_generate_files tr))
          config_path terraform_path composition with
  | Some e => raise e
  | None => mret tt
  end.

Definition self_execute (command : Command) : M Z :=
  tr ← get_trace;
  emit (Execute command);;
  mret (execute_status (length (List.filter is_execute tr)) command).

Definition tf_get_sorted_compositions (order excluded : value)
    (config_path : string) (reverse : bool) : M (list string) :=
  emit (GetSortedCompositions order excluded config_path reverse);;
  mret (get_sorted_compositions order excluded config_path reverse).

(** ** [TerraformRunner] *)

Definition check_ops_version : M unit :=
  c ← get_conf;
  if bool_decide (is_Some (c !! "terraform")) then
    tf ← lift (py_getitem (VDict c) "terraform");
    has ← lift (py_contains "ops_min_version" tf);
    if (has : bool) then
      v ← lift (py_getitem tf "ops_min_version");
      let ops_min_version := py_str v in
      validate_ops_version ops_min_version
    else mret tt
  else mret tt.

(** [config] is always the runner's own [ClusterConfig] object, read
    here from the world. *)
Definition run_composition (args : Args) : M Command :=
  config ← get_conf;
  emit (Generate args config);;
  mret (generate args config).

Definition run_v1_integration (args : Args) : M Command :=
  run_composition args.

Definition run_v2_composition (args : Args)
    (terraform_path composition : string) : M Command :=
  config_setitem "terraform" (VDict ∅);;
  config_setitem_in "terraform" "path"
    (VStr (terraform_path +:+ composition));;
  config_setitem_in "terraform" "variables_file"
    (VStr "variables.tfvars.json");;
  let cluster_id :=
    str_take 6 (MD5.hexdigest (MD5.encode_utf8 cluster_config_path)) in
  config_setitem "cluster" (VStr ("auto_generated_" +:+ cluster_id));;
  run_composition args.

(** The [for] loop of [run_v2_compositions], with its two locals. *)
Fixpoint run_v2_loop (args : Args) (config_path terraform_path : string)
    (compositions : list string) (should_finish : bool) (return_code : Z)
  : M Z :=
  match compositions with
  | [] => mret return_code
  | composition :: rest =>
      if should_finish then
        emit (LogSkipping (subcommand args) composition);;
        run_v2_loop args config_path terraform_path rest
                    should_finish return_code
      else
        emit (LogRunning composition);;
        tf_generate_files config_path terraform_path composition;;
        command ← run_v2_composition args terraform_path composition;
        return_code ← self_execute command;
        if negb (return_code =? 0) then
          emit (LogFailed composition);;
          run_v2_loop args config_path terraform_path rest true return_code
        else
          run_v2_loop args config_path terraform_path rest
                      should_finish return_code
  end.

Definition run_v2_compositions (args : Args)
    (config_path terraform_path : string) (compositions : list string)
  : M Z :=
  run_v2_loop args config_path terraform_path compositions false 0.

(** [logging.basicConfig] only configures the log output and is left out. *)
Definition run_v2_integration (args : Args) : M Z :=
  let config_path := os_path_join cluster_config_path "" in
  let terraform_path :=
    match terraform_path args with
    | None => "../ee-k8s-infra/"
    | Some p => os_path_join p ""
    end in
  let terraform_path := terraform_path +:+ "compositions/terraform/" in
  let ops_config := ops_config_config in
  compositions_section ← lift (py_getitem ops_config "compositions");
  order_section ← lift (py_getitem compositions_section "order");
  composition_order ← lift (py_getitem order_section "terraform");
  compositions_section ← lift (py_getitem ops_config "compositions");
  excluded_config_keys ←
    lift (py_getitem compositions_section "excluded_config_keys");
  let reverse_order := String.eqb "destroy" (subcommand args) in
  compositions ← tf_get_sorted_compositions composition_order
                   excluded_config_keys config_path reverse_order;
  if len_is_zero compositions then
    raise (Exception ("No terraform compositions were detected in "
                      +:+ config_path +:+ "."))
  else
    run_v2_compositions args config_path terraform_path compositions.

(** [run] returns a command in single-unit mode and an exit status in
    multi-unit mode. *)
Inductive run_result : Type :=
| RCommand (command : Command)
| RStatus (return_code : Z).

Definition run (args : Args) : M run_result :=
  check_ops_version;;
  terraform_config_path ←
    environ_get "TF_CLI_CONFIG_FILE" terraform_config_path;
  environ_set "TF_CLI_CONFIG_FILE" terraform_config_path;;
  emit (LogSetEnv terraform_config_path);;
  is_dir ← os_path_isdir cluster_config_path;
  if (is_dir : bool) then
    return_code ← run_v2_integration args; mret (RStatus return_code)
  else
    command ← run_v1_integration args; mret (RCommand command).


(** ** What one iteration leaves behind *)

(** The [terraform] mapping built for a unit. *)
Definition terraform_section (terraform_path composition : string)
  : value :=
  VDict (<["variables_file" := VStr "variables.tfvars.json"]>
           (<["path" := VStr (terraform_path +:+ composition)]> ∅)).

(** The [cluster] value built for every unit. *)
Definition cluster_identity : value :=
  VStr ("auto_generated_" +:+ cluster_id cluster_config_path).

(** The configuration after the unit's two keys are injected. *)
Definition inject (terraform_path composition : string)
    (c : gmap string value) : gmap string value :=
  <["cluster" := cluster_identity]>
    (<["terraform" := terraform_section terraform_path composition]> c).

Definition unit_command (args : Args) (terraform_path : string)
    (c : gmap string value) (composition : string) : Command :=
  generate args (inject terraform_path composition c).

(** The effects of one unit up to and including its execution. *)
Definition unit_events (args : Args) (config_path terraform_path : string)
    (c : gmap string value) (composition : string) : list event :=
  [ LogRunning composition;
    GenerateFiles config_path terraform_path composition;
    Generate args (inject terraform_path composition c);
    Execute (unit_command args terraform_path c composition) ].

Definition executions (tr : list event) : nat :=
  length (List.filter is_execute tr).

Definition renderings (tr : list event) : nat :=
  length (List.filter is_generate_files tr).

(** Exit status of the [i]-th unit of a run started in world [w]. *)
Definition unit_status (args : Args) (terraform_path : string) (w : World)
    (i : nat) (composition : string) : Z :=
  execute_status (executions (trace w) + i)
                 (unit_command args terraform_path (conf w) composition).

(** What rendering the [i]-th unit of a run started in [w] raises. *)
Definition unit_render (config_path terraform_path : string) (w : World)
    (i : nat) (composition : string) : option exn :=
  generate_files_raises (renderings (trace w) + i)
                        config_path terraform_path composition.

Definition with_trace (w : World) (tr : list event) : World :=
  {| environ := environ w; conf := conf w; trace := tr |}.

(** The units whose files a trace generates, in order. *)
Definition generated_units (tr : list event) : list string :=
  omap (fun e => match e with
                 | GenerateFiles _ _ composition => Some composition
                 | _ => None
                 end) tr.

(** The commands a trace hands to the executor, in order. *)
Definition executed_commands (tr : list event) : list Command :=
  omap (fun e => match e with
                 | Execute command => Some command
                 | _ => None
                 end) tr.

(** The world after the units of [done] all ran and returned 0. *)
Definition after_units (args : Args) (config_path terraform_path : string)
    (done : list string) (w : World) : World :=
  {| environ := environ w;
     conf := match last done with
             | Some composition => inject terraform_path composition (conf w)
             | None => conf w
             end;
     trace := trace w ++ flat_map (unit_events args config_path
                                     terraform_path (conf w)) done |}.

(** An empty process: no environment, a small configuration, no effects. *)
Definition sample_world (min_version : option value) : World :=
  {| environ := ∅; conf := sample_conf min_version; trace := [] |}.

(** What the loop may do: log, render, build a command from a
    configuration that carries the run's identity and some unit's
    [terraform] mapping, and execute. *)
Definition loop_event (args : Args) (terraform_path : string) (e : event)
  : Prop :=
  match e with
  | LogRunning _ | LogSkipping _ _ | LogFailed _
  | GenerateFiles _ _ _ | Execute _ => True
  | Generate a config =>
      a = args
      /\ config !! "cluster" = Some cluster_identity
      /\ exists composition,
           config !! "terraform"
           = Some (terraform_section terraform_path composition)
  | SetEnv _ _ | IsDir _ | GetSortedCompositions _ _ _ _ | LogSetEnv _ =>
      False
  end.

Definition is_set_env (e : event) : bool :=
  match e with SetEnv _ _ => true | _ => false end.

Definition is_isdir (e : event) : bool :=
  match e with IsDir _ => true | _ => false end.

Definition is_resolve (e : event) : bool :=
  match e with GetSortedCompositions _ _ _ _ => true | _ => false end.

Definition is_notice (e : event) : bool :=
  match e with LogSkipping _ _ | LogFailed _ => true | _ => false end.

Definition result_map {A B} (f : A -> B) (r : result A) : result B :=
  match r with
  | Ok a => Ok (f a)
  | Raise e => Raise e
  end.

(** The rendering-failure policy in the specification's words: a unit
    whose files cannot be generated ends the run the way a unit whose
    executor failed does, with an exit status as the outcome and a skip
    notice for every remaining unit. *)
Definition render_failure_like_exit_status (args : Args)
    (config_path terraform_path : string) (compositions : list string)
    (w : World) : Prop :=
  forall j c e,
    compositions !! j = Some c ->
    (forall i c', (i < j)%nat -> compositions !! i = Some c' ->
       unit_render config_path terraform_path w i c' = None
       /\ unit_status args terraform_path w i c' = 0) ->
    unit_render config_path terraform_path w j c = Some e ->
    let out := run_v2_compositions args config_path terraform_path
                                   compositions w in
    (exists rc, out.1 = Ok rc /\ rc <> 0)
    /\ forall c', c' ∈ drop (S j) compositions ->
         LogSkipping (subcommand args) c' ∈ trace out.2.

(** The two paths [run_v2_integration] computes before it resolves. *)
Definition v2_config_path : string := os_path_join cluster_config_path "".

Definition v2_terraform_path (args : Args) : string :=
  match terraform_path args with
  | None => "../ee-k8s-infra/"
  | Some p => os_path_join p ""
  end +:+ "compositions/terraform/".

(** What multi-unit mode may do: resolve with the reverse flag of the
    subcommand, then loop. *)
Definition v2_event (args : Args) (e : event) : Prop :=
  match e with
  | GetSortedCompositions _ _ config_path reverse =>
      config_path = v2_config_path
      /\ reverse = String.eqb "destroy" (subcommand args)
  | _ => loop_event args (v2_terraform_path args) e
  end.

(** The value [run] resolves for [TF_CLI_CONFIG_FILE] in world [w]. *)
Definition resolved_config_file (w : World) : string :=
  default terraform_config_path (environ w !! "TF_CLI_CONFIG_FILE").

(** The world when [run] picks its mode. *)
Definition prepared (w : World) : World :=
  {| environ := <["TF_CLI_CONFIG_FILE" := resolved_config_file w]>
                  (environ w);
     conf := conf w;
     trace := trace w ++ [ SetEnv "TF_CLI_CONFIG_FILE"
                                  (resolved_config_file w);
                           LogSetEnv (resolved_config_file w);
                           IsDir cluster_config_path ] |}.

(** The units a trace reports as skipped, in order. *)
Definition skipped_units (tr : list event) : list string :=
  omap (fun e => match e with
                 | LogSkipping _ composition => Some composition
                 | _ => None
                 end) tr.

(** The units a trace reports as failed, in order. *)
Definition failed_units (tr : list event) : list string :=
  omap (fun e => match e with
                 | LogFailed composition => Some composition
                 | _ => None
                 end) tr.

(** ** Proof support *)

Ltac unfold_m :=
  unfold mbind, M_bind, mret, M_ret, raise, lift, emit, get_conf,
    get_trace, environ_get, environ_set, config_setitem,
    config_setitem_in in *.

Lemma inject_inject tp tp' c c' (cf : gmap string value) :
  inject tp c (inject tp' c' cf) = inject tp c cf.
Proof.
  apply map_eq; intros k. unfold inject.
  rewrite !lookup_insert. repeat case_decide; congruence.
Qed.

Lemma inject_other tp c (cf : gmap string value) (k : string) :
  k ≠ "terraform" → k ≠ "cluster" → inject tp c cf !! k = cf !! k.
Proof.
  intros Ht Hc. unfold inject.
  rewrite !lookup_insert. repeat case_decide; congruence.
Qed.

Lemma run_v2_composition_spec args tp c w :
  run_v2_composition args tp c w
  = (Ok (unit_command args tp (conf w) c),
     {| environ := environ w; conf := inject tp c (conf w);
        trace := trace w ++ [Generate args (inject tp c (conf w))] |}).
Proof.
  unfold run_v2_composition, run_composition. unfold_m. simpl.
  rewrite lookup_insert_eq. simpl.
  rewrite lookup_insert_eq. simpl.
  rewrite !insert_insert_eq.
  reflexivity.
Qed.

Lemma executions_app tr tr' :
  executions (tr ++ tr') = (executions tr + executions tr')%nat.
Proof. unfold executions. by rewrite List.filter_app, length_app. Qed.

Lemma renderings_app tr tr' :
  renderings (tr ++ tr') = (renderings tr + renderings tr')%nat.
Proof. unfold renderings. by rewrite List.filter_app, length_app. Qed.

Lemma unit_command_inject args tp tp' c c' cf :
  unit_command args tp (inject tp' c' cf) c = unit_command args tp cf c.
Proof. unfold unit_command. by rewrite inject_inject. Qed.

Lemma unit_events_inject args cp tp tp' c c' cf :
  unit_events args cp tp (inject tp' c' cf) c = unit_events args cp tp cf c.
Proof. unfold unit_events. by rewrite unit_command_inject, inject_inject. Qed.

(** Once the halt flag is set the loop only logs. *)
Lemma run_v2_loop_halted args cp tp comps rc w :
  run_v2_loop args cp tp comps true rc w
  = (Ok rc, with_trace w (trace w ++ map (LogSkipping (subcommand args))
                                          comps)).
Proof.
  revert w. induction comps as [| c comps IH]; intros w; simpl.
  - unfold_m. unfold with_trace. rewrite app_nil_r. by destruct w.
  - unfold_m. simpl. rewrite IH. unfold with_trace. simpl.
    by rewrite <- app_assoc.
Qed.

(** One pass through the loop body with the halt flag clear. *)
Lemma run_v2_loop_unit args cp tp c rest rc w :
  run_v2_loop args cp tp (c :: rest) false rc w
  = match unit_render cp tp w 0 c with
    | Some e =>
        (Raise e,
         with_trace w (trace w ++ [LogRunning c; GenerateFiles cp tp c]))
    | None =>
        let status := unit_status args tp w 0 c in
        let w1 := after_units args cp tp [c] w in
        if negb (status =? 0) then
          run_v2_loop args cp tp rest true status
                      (with_trace w1 (trace w1 ++ [LogFailed c]))
        else run_v2_loop args cp tp rest false status w1
    end.
Proof.
  simpl. unfold tf_generate_files, self_execute, unit_render, unit_status.
  unfold_m. simpl.
  fold (renderings (trace w ++ [LogRunning c])).
  rewrite renderings_app. simpl.
  destruct (generate_files_raises _ cp tp c) as [e |].
  { unfold with_trace. by rewrite <- app_assoc. }
  rewrite run_v2_composition_spec. simpl.
  match goal with
  | |- context [length (List.filter is_execute ?t)] =>
      fold (executions t)
  end.
  rewrite !executions_app. simpl. rewrite !Nat.add_0_r.
  unfold after_units, with_trace, unit_events. simpl.
  rewrite <- !app_assoc. simpl.
  destruct (negb _); simpl; rewrite <- ?app_assoc; reflexivity.
Qed.

(** A prefix of units that all render and return 0 is run in full. *)
Lemma run_v2_loop_prefix args cp tp pre rest rc w :
  (forall i c, pre !! i = Some c ->
     unit_render cp tp w i c = None /\ unit_status args tp w i c = 0) ->
  run_v2_loop args cp tp (pre ++ rest) false rc w
  = run_v2_loop args cp tp rest false
      (match pre with [] => rc | _ => 0 end)
      (after_units args cp tp pre w).
Proof.
  revert rc w. induction pre as [| c pre IH]; intros rc w Hpre.
  - simpl. unfold after_units. simpl. rewrite app_nil_r. by destruct w.
  - rewrite <- app_comm_cons, run_v2_loop_unit.
    destruct (Hpre 0%nat c eq_refl) as [-> Hst]. simpl.
    rewrite Hst. simpl.
    rewrite IH.
    + f_equal.
      * by destruct pre.
      * unfold after_units. simpl. f_equal.
        -- destruct pre as [| c' pre]; [done |].
           change (last (c :: c' :: pre)) with (last (c' :: pre)).
           destruct (last (c' :: pre)) eqn:E; [ apply inject_inject |].
           by apply last_None in E.
        -- rewrite <- !app_assoc. simpl. do 5 f_equal.
           apply flat_map_ext. intros c'. apply unit_events_inject.
    + intros i c' Hi. destruct (Hpre (S i) c' Hi) as [Hr Hs].
      unfold unit_render, unit_status in *. simpl.
      rewrite renderings_app, executions_app. simpl.
      rewrite unit_command_inject.
      rewrite <- !Nat.add_assoc. simpl. by rewrite Hr, Hs.
Qed.

Lemma renderings_units args cp tp cf l :
  renderings (flat_map (unit_events args cp tp cf) l) = length l.
Proof.
  induction l as [| c l IH]; [done |].
  simpl. rewrite <- IH. reflexivity.
Qed.

Lemma executions_units args cp tp cf l :
  executions (flat_map (unit_events args cp tp cf) l) = length l.
Proof.
  induction l as [| c l IH]; [done |].
  simpl. rewrite <- IH. reflexivity.
Qed.

Lemma generated_units_units args cp tp cf l :
  generated_units (flat_map (unit_events args cp tp cf) l) = l.
Proof.
  induction l as [| c l IH]; [done |].
  simpl. unfold generated_units in *. simpl. by rewrite IH.
Qed.

Lemma executed_commands_units args cp tp cf l :
  executed_commands (flat_map (unit_events args cp tp cf) l)
  = map (unit_command args tp cf) l.
Proof.
  induction l as [| c l IH]; [done |].
  simpl. unfold executed_commands in *. simpl. by rewrite IH.
Qed.

Lemma generated_units_skipping subcmd l :
  generated_units (map (LogSkipping subcmd) l) = [].
Proof. induction l as [| c l IH]; [done |]. exact IH. Qed.

Lemma executed_commands_skipping subcmd l :
  executed_commands (map (LogSkipping subcmd) l) = [].
Proof. induction l as [| c l IH]; [done |]. exact IH. Qed.

Lemma after_units_conf_command args cp tp pre w c :
  unit_command args tp (conf (after_units args cp tp pre w)) c
  = unit_command args tp (conf w) c.
Proof.
  unfold after_units. simpl.
  destruct (last pre); [ apply unit_command_inject | done ].
Qed.

Lemma after_units_conf_events args cp tp pre w c :
  unit_events args cp tp (conf (after_units args cp tp pre w)) c
  = unit_events args cp tp (conf w) c.
Proof.
  unfold after_units. simpl.
  destruct (last pre); [ apply unit_events_inject | done ].
Qed.

Lemma after_units_render args cp tp pre w i c :
  unit_render cp tp (after_units args cp tp pre w) i c
  = unit_render cp tp w (length pre + i) c.
Proof.
  unfold unit_render. simpl.
  by rewrite renderings_app, renderings_units, Nat.add_assoc.
Qed.

Lemma after_units_status args cp tp pre w i c :
  unit_status args tp (after_units args cp tp pre w) i c
  = unit_status args tp w (length pre + i) c.
Proof.
  unfold unit_status. rewrite after_units_conf_command. simpl.
  by rewrite executions_app, executions_units, Nat.add_assoc.
Qed.

Lemma after_units_snoc args cp tp pre c w :
  after_units args cp tp [c] (after_units args cp tp pre w)
  = after_units args cp tp (pre ++ [c]) w.
Proof.
  pose proof (after_units_conf_events args cp tp pre w c) as Hev.
  unfold after_units in *. simpl in *.
  rewrite last_snoc, flat_map_app. simpl. f_equal.
  - destruct (last pre); [ apply inject_inject | done ].
  - rewrite <- app_assoc. do 2 f_equal. exact Hev.
Qed.

#[local] Arguments after_units : simpl never.
#[local] Arguments with_trace : simpl never.

(** The run when unit [j] (counted from 0) is the first to fail. *)
Lemma run_v2_compositions_first_failure args cp tp comps w j c :
  comps !! j = Some c ->
  (forall i c', (i <= j)%nat -> comps !! i = Some c' ->
     unit_render cp tp w i c' = None) ->
  (forall i c', (i < j)%nat -> comps !! i = Some c' ->
     unit_status args tp w i c' = 0) ->
  unit_status args tp w j c <> 0 ->
  run_v2_compositions args cp tp comps w
  = (Ok (unit_status args tp w j c),
     with_trace (after_units args cp tp (take (S j) comps) w)
       (trace w
        ++ flat_map (unit_events args cp tp (conf w)) (take (S j) comps)
        ++ LogFailed c
           :: map (LogSkipping (subcommand args)) (drop (S j) comps))).
Proof.
  intros Hc Hrender Hzero Hfail.
  assert (Hlen : length (take j comps) = j).
  { apply length_take_le. pose proof (lookup_lt_Some _ _ _ Hc). lia. }
  unfold run_v2_compositions.
  rewrite <- (take_drop_middle comps j c Hc) at 1.
  rewrite run_v2_loop_prefix.
  2:{ intros i c' Hi.
      assert (i < j)%nat as Hij.
      { pose proof (lookup_lt_Some _ _ _ Hi). lia. }
      rewrite lookup_take_lt in Hi by done.
      split; [ apply Hrender; [lia | done] | by apply Hzero ]. }
  rewrite run_v2_loop_unit.
  rewrite after_units_render, after_units_status, Hlen, Nat.add_0_r.
  rewrite (Hrender j c) by done. simpl.
  destruct (Z.eqb_spec (unit_status args tp w j c) 0) as [E | _];
    [ contradiction |]. simpl.
  rewrite run_v2_loop_halted, after_units_snoc.
  rewrite (take_S_r comps j c Hc).
  unfold with_trace, after_units. simpl.
  rewrite flat_map_app. simpl. rewrite <- !app_assoc. simpl.
  destruct (last (take j comps));
    by rewrite ?inject_inject, ?unit_command_inject.
Qed.

(** The run when every unit renders and returns 0. *)
Lemma run_v2_compositions_all_zero args cp tp comps w :
  (forall i c', comps !! i = Some c' ->
     unit_render cp tp w i c' = None /\ unit_status args tp w i c' = 0) ->
  run_v2_compositions args cp tp comps w
  = (Ok 0, after_units args cp tp comps w).
Proof.
  intros Hall. unfold run_v2_compositions.
  rewrite <- (app_nil_r comps) at 1.
  rewrite run_v2_loop_prefix by done. simpl. by destruct comps.
Qed.

Lemma skipping_loop_events args tp subcmd l :
  Forall (loop_event args tp) (map (LogSkipping subcmd) l).
Proof. induction l; simpl; by constructor. Qed.

(** Whatever the collaborators do, the loop leaves the environment alone,
    only adds loop events, and touches two keys of the configuration. *)
Lemma run_v2_loop_invariant args cp tp comps halted rc w :
  let out := run_v2_loop args cp tp comps halted rc w in
  environ out.2 = environ w
  /\ (exists new, trace out.2 = trace w ++ new
                  /\ Forall (loop_event args tp) new)
  /\ (forall key : string, key <> "terraform" -> key <> "cluster" ->
        conf out.2 !! key = conf w !! key).
Proof.
  revert halted rc w. induction comps as [| c comps IH]; intros halted rc w.
  { simpl. split; [done |]. split; [| done].
    exists []. by rewrite app_nil_r. }
  destruct halted.
  { rewrite run_v2_loop_halted. unfold with_trace.
    cbn [fst snd environ conf trace]. split; [done |]. split; [| done].
    eexists. split; [done |]. apply skipping_loop_events. }
  rewrite run_v2_loop_unit.
  destruct (unit_render cp tp w 0 c) as [e |].
  { simpl. split; [done |]. split; [| done].
    eexists. split; [done |]. by repeat constructor. }
  assert (Hunit : Forall (loop_event args tp)
                    (unit_events args cp tp (conf w) c)).
  { unfold unit_events. repeat constructor; simpl.
    - unfold inject. by rewrite lookup_insert_eq.
    - exists c. unfold inject.
      rewrite lookup_insert_ne by done. by rewrite lookup_insert_eq. }
  cbv zeta.
  destruct (negb _);
    match goal with
    | |- context [run_v2_loop args cp tp comps ?h ?r ?w1] =>
        destruct (IH h r w1) as (Henv & (new & Htr & Hnew) & Hconf)
    end;
    (split; [| split]).
  - by rewrite Henv.
  - exists (unit_events args cp tp (conf w) c ++ [LogFailed c] ++ new).
    split.
    { rewrite Htr. unfold with_trace, after_units. simpl.
      by rewrite <- !app_assoc. }
    apply Forall_app. split; [exact Hunit |].
    apply Forall_app. split; [by repeat constructor | exact Hnew].
  - intros key Ht Hc. rewrite Hconf by done.
    unfold with_trace, after_units. simpl. by apply inject_other.
  - by rewrite Henv.
  - exists (unit_events args cp tp (conf w) c ++ new).
    split.
    { rewrite Htr. unfold after_units. simpl.
      by rewrite <- !app_assoc. }
    apply Forall_app. split; [exact Hunit | exact Hnew].
  - intros key Ht Hc. rewrite Hconf by done.
    unfold after_units. simpl. by apply inject_other.
Qed.

(** The run when rendering unit [j] (counted from 0) raises. *)
Lemma run_v2_compositions_render_failure args cp tp comps w j c e :
  comps !! j = Some c ->
  (forall i c', (i < j)%nat -> comps !! i = Some c' ->
     unit_render cp tp w i c' = None /\ unit_status args tp w i c' = 0) ->
  unit_render cp tp w j c = Some e ->
  run_v2_compositions args cp tp comps w
  = (Raise e,
     with_trace (after_units args cp tp (take j comps) w)
       (trace (after_units args cp tp (take j comps) w)
        ++ [LogRunning c; GenerateFiles cp tp c])).
Proof.
  intros Hc Hpre Hraise.
  assert (Hlen : length (take j comps) = j).
  { apply length_take_le. pose proof (lookup_lt_Some _ _ _ Hc). lia. }
  unfold run_v2_compositions.
  rewrite <- (take_drop_middle comps j c Hc) at 1.
  rewrite run_v2_loop_prefix.
  2:{ intros i c' Hi.
      assert (i < j)%nat as Hij.
      { pose proof (lookup_lt_Some _ _ _ Hi). lia. }
      rewrite lookup_take_lt in Hi by done. by apply Hpre. }
  rewrite run_v2_loop_unit.
  by rewrite after_units_render, Hlen, Nat.add_0_r, Hraise.
Qed.

(** ** The run loop *)

(** C1. Run-loop halt semantics. For any sequence of compositions and any
    exit statuses: when unit [k] (counted from 1) is the first whose
    executor returns non-zero, the loop generates files for and executes
    exactly units 1..k, once each and in order, each generation directly
    ahead of its execution; it only logs a skip notice for units k+1..N and
    returns unit [k]'s status. When every unit returns 0 it returns 0 and
    every unit is generated and executed once, in order. The units reached
    are taken to render without raising. *)
Theorem run_v2_compositions_halt_semantics args cp tp comps w :
  (forall k c,
     (1 <= k)%nat ->
     comps !! (k - 1)%nat = Some c ->
     (forall i c', (i < k)%nat -> comps !! i = Some c' ->
        unit_render cp tp w i c' = None) ->
     (forall i c', (i < k - 1)%nat -> comps !! i = Some c' ->
        unit_status args tp w i c' = 0) ->
     unit_status args tp w (k - 1) c <> 0 ->
     let out := run_v2_compositions args cp tp comps w in
     let new :=
       flat_map (unit_events args cp tp (conf w)) (take k comps)
       ++ LogFailed c
          :: map (LogSkipping (subcommand args)) (drop k comps) in
     out.1 = Ok (unit_status args tp w (k - 1) c)
     /\ trace out.2 = trace w ++ new
     /\ generated_units new = take k comps
     /\ executed_commands new
        = map (unit_command args tp (conf w)) (take k comps))
  /\ ((forall i c', comps !! i = Some c' ->
         unit_render cp tp w i c' = None
         /\ unit_status args tp w i c' = 0) ->
      let out := run_v2_compositions args cp tp comps w in
      let new := flat_map (unit_events args cp tp (conf w)) comps in
      out.1 = Ok 0
      /\ trace out.2 = trace w ++ new
      /\ generated_units new = comps
      /\ executed_commands new
         = map (unit_command args tp (conf w)) comps).
Proof.
  split.
  - intros k c Hk Hc Hrender Hzero Hfail.
    destruct k as [| j]; [lia |].
    replace (S j - 1)%nat with j in * by lia.
    cbv zeta.
    rewrite (run_v2_compositions_first_failure args cp tp comps w j c);
      [| assumption | | assumption | assumption ].
    2:{ intros i c' Hi Hl. apply Hrender; [lia | done]. }
    unfold with_trace. cbn [fst snd trace].
    split; [done |]. split; [done |].
    unfold generated_units, executed_commands.
    rewrite !omap_app.
    fold (generated_units (flat_map (unit_events args cp tp (conf w))
                             (take (S j) comps))).
    fold (executed_commands (flat_map (unit_events args cp tp (conf w))
                               (take (S j) comps))).
    rewrite generated_units_units, executed_commands_units.
    change (LogFailed c :: map (LogSkipping (subcommand args))
                               (drop (S j) comps))
      with ([LogFailed c] ++ map (LogSkipping (subcommand args))
                                 (drop (S j) comps)).
    rewrite !omap_app.
    fold (generated_units (map (LogSkipping (subcommand args))
                             (drop (S j) comps))).
    fold (executed_commands (map (LogSkipping (subcommand args))
                               (drop (S j) comps))).
    rewrite generated_units_skipping, executed_commands_skipping.
    simpl. by rewrite !app_nil_r.
  - intros Hall. cbv zeta.
    rewrite run_v2_compositions_all_zero by done.
    unfold after_units. cbn [fst snd trace].
    by rewrite generated_units_units, executed_commands_units.
Qed.

(** C8, as the code has it. When generating the files of unit [j]
    (counted from 0) raises, after the units before it rendered and
    returned 0, the exception leaves the loop: no exit status is
    returned, the units after [j] are neither generated nor executed, and
    no skip or failure notice is logged. *)
Theorem rendering_failure_propagates args cp tp comps w j c e :
  comps !! j = Some c ->
  (forall i c', (i < j)%nat -> comps !! i = Some c' ->
     unit_render cp tp w i c' = None /\ unit_status args tp w i c' = 0) ->
  unit_render cp tp w j c = Some e ->
  let out := run_v2_compositions args cp tp comps w in
  let new := flat_map (unit_events args cp tp (conf w)) (take j comps)
             ++ [LogRunning c; GenerateFiles cp tp c] in
  out.1 = Raise e
  /\ trace out.2 = trace w ++ new
  /\ generated_units new = take (S j) comps
  /\ executed_commands new
     = map (unit_command args tp (conf w)) (take j comps)
  /\ List.filter is_notice new = [].
Proof.
  intros Hc Hpre Hraise. cbv zeta.
  rewrite (run_v2_compositions_render_failure args cp tp comps w j c e)
    by assumption.
  unfold with_trace, after_units. cbn [fst snd trace].
  split; [done |]. split; [by rewrite <- app_assoc |].
  unfold generated_units, executed_commands.
  rewrite !omap_app, List.filter_app.
  fold (generated_units (flat_map (unit_events args cp tp (conf w))
                           (take j comps))).
  fold (executed_commands (flat_map (unit_events args cp tp (conf w))
                             (take j comps))).
  rewrite generated_units_units, executed_commands_units.
  simpl. rewrite app_nil_r, (take_S_r comps j c Hc).
  split; [done |]. split; [done |].
  induction (take j comps) as [| c' l IH]; [done |]. exact IH.
Qed.

(** C9. Per-unit injection frame. One call of [run_v2_composition]
    replaces [terraform] by a mapping holding exactly the unit's path and
    the fixed variables-file name, sets [cluster], and leaves every other
    key of the shared configuration (and the environment) as it was; so
    does a whole run of the loop, whatever its units do. *)
Theorem injection_frame args cp tp comps c w (key : string) :
  key <> "terraform" -> key <> "cluster" ->
  let once := run_v2_composition args tp c w in
  conf once.2 !! "terraform"
  = Some (VDict (<["variables_file" := VStr "variables.tfvars.json"]>
                   (<["path" := VStr (tp +:+ c)]> ∅)))
  /\ conf once.2 !! "cluster" = Some cluster_identity
  /\ conf once.2 !! key = conf w !! key
  /\ environ once.2 = environ w
  /\ conf (run_v2_compositions args cp tp comps w).2 !! key
     = conf w !! key.
Proof.
  intros Ht Hc. cbv zeta. rewrite run_v2_composition_spec.
  cbn [snd conf environ].
  split.
  { unfold inject. rewrite lookup_insert_ne by done.
    by rewrite lookup_insert_eq. }
  split.
  { unfold inject. by rewrite lookup_insert_eq. }
  split; [by apply inject_other |]. split; [done |].
  by apply (run_v2_loop_invariant args cp tp comps false 0 w).
Qed.

(** C10. Constant identity across a run. Every configuration from which
    the loop builds a command carries the same [cluster] value: the
    text "auto_generated_" followed by the first 6 hex characters of the
    MD5 digest of the cluster configuration path; it does not depend on
    the composition, the arguments or the iteration. *)
Theorem cluster_identity_constant args cp tp comps w :
  let identity :=
    VStr ("auto_generated_"
          +:+ str_take 6 (MD5.hexdigest
                            (MD5.encode_utf8 cluster_config_path))) in
  (forall a tp' c w',
     conf (run_v2_composition a tp' c w').2 !! "cluster" = Some identity)
  /\ exists new,
       trace (run_v2_compositions args cp tp comps w).2 = trace w ++ new
       /\ forall a config,
            Generate a config ∈ new -> config !! "cluster" = Some identity.
Proof.
  cbv zeta. split.
  - intros a tp' c w'. rewrite run_v2_composition_spec.
    cbn [snd conf]. unfold inject. by rewrite lookup_insert_eq.
  - destruct (run_v2_loop_invariant args cp tp comps false 0 w)
      as (_ & (new & Htr & Hnew) & _).
    exists new. split; [exact Htr |].
    intros a config Hin.
    rewrite Forall_forall in Hnew. apply Hnew in Hin.
    simpl in Hin. by destruct Hin as (_ & Hid & _).
Qed.

(** ** The version gate *)

Lemma check_ops_version_world w : (check_ops_version w).2 = w.
Proof.
  unfold check_ops_version, validate_ops_version. unfold_m.
  case_bool_decide; [| done]. simpl.
  destruct (conf w !! "terraform") as [tf |]; [| done].
  destruct (py_contains "ops_min_version" tf) as [[|] | e]; try done.
  destruct (py_getitem tf "ops_min_version"); [| done].
  by destruct (version_lt _ _).
Qed.

Lemma check_ops_version_declared w section v :
  conf w !! "terraform" = Some (VDict section) ->
  section !! "ops_min_version" = Some v ->
  check_ops_version w
  = (if version_lt current_ops_version (py_str v)
     then Raise (VersionIncompatible current_ops_version (py_str v))
     else Ok tt, w).
Proof.
  intros Htf Hv. unfold check_ops_version, validate_ops_version. unfold_m.
  rewrite bool_decide_eq_true_2 by (rewrite Htf; eauto).
  simpl. rewrite Htf. simpl.
  rewrite bool_decide_eq_true_2 by (rewrite Hv; eauto).
  rewrite Hv. by destruct (version_lt _ _).
Qed.

Lemma check_ops_version_undeclared w section :
  conf w !! "terraform" = Some (VDict section) ->
  section !! "ops_min_version" = None ->
  check_ops_version w = (Ok tt, w).
Proof.
  intros Htf Hv. unfold check_ops_version. unfold_m.
  rewrite bool_decide_eq_true_2 by (rewrite Htf; eauto).
  simpl. rewrite Htf. simpl.
  rewrite bool_decide_eq_false_2; [done |].
  rewrite Hv. by intros [? ?].
Qed.

Lemma check_ops_version_no_section w :
  conf w !! "terraform" = None -> check_ops_version w = (Ok tt, w).
Proof.
  intros Htf. unfold check_ops_version. unfold_m.
  rewrite bool_decide_eq_false_2; [done |].
  rewrite Htf. by intros [? ?].
Qed.

(** C4. Version gate. [check_ops_version] raises the version
    incompatibility exactly when the configuration has a [terraform]
    section that declares an [ops_min_version] strictly greater than the
    running version in the version order; with no [terraform] section, or
    one that declares no [ops_min_version], it returns and changes
    nothing; it never changes the world. *)
Theorem check_ops_version_gate w :
  (forall cur minimum,
     (check_ops_version w).1 = Raise (VersionIncompatible cur minimum) <->
     exists section v,
       conf w !! "terraform" = Some (VDict section)
       /\ section !! "ops_min_version" = Some v
       /\ version_lt current_ops_version (py_str v) = true
       /\ cur = current_ops_version /\ minimum = py_str v)
  /\ (conf w !! "terraform" = None -> check_ops_version w = (Ok tt, w))
  /\ (forall section,
        conf w !! "terraform" = Some (VDict section) ->
        section !! "ops_min_version" = None ->
        check_ops_version w = (Ok tt, w))
  /\ (check_ops_version w).2 = w.
Proof.
  split; [| split; [| split]].
  - intros cur minimum. split.
    + destruct (conf w !! "terraform") as [tf |] eqn:Htf.
      2:{ by rewrite check_ops_version_no_section. }
      destruct tf as [| b | n | text | s | l | section];
        try (unfold check_ops_version; unfold_m;
             rewrite bool_decide_eq_true_2 by (rewrite Htf; eauto);
             simpl; rewrite Htf; simpl; try done;
             match goal with
             | |- context [if ?b then _ else _] => by destruct b
             end).
      destruct (section !! "ops_min_version") as [v |] eqn:Hv.
      2:{ by rewrite (check_ops_version_undeclared w section). }
      rewrite (check_ops_version_declared w section v) by done.
      destruct (version_lt current_ops_version (py_str v)) eqn:Hlt;
        [| done].
      simpl. intros [= <- <-]. by exists section, v.
    + intros (section & v & Htf & Hv & Hlt & -> & ->).
      rewrite (check_ops_version_declared w section v) by done.
      by rewrite Hlt.
  - apply check_ops_version_no_section.
  - apply check_ops_version_undeclared.
  - apply check_ops_version_world.
Qed.

(** ** Multi-unit mode *)

(** [run_v2_integration] once the four settings lookups succeed. *)
Lemma run_v2_integration_resolved args w section orders order excluded :
  py_getitem ops_config_config "compositions" = Ok section ->
  py_getitem section "order" = Ok orders ->
  py_getitem orders "terraform" = Ok order ->
  py_getitem section "excluded_config_keys" = Ok excluded ->
  let reverse := String.eqb "destroy" (subcommand args) in
  let compositions :=
    get_sorted_compositions order excluded v2_config_path reverse in
  let w1 :=
    with_trace w (trace w ++ [GetSortedCompositions order excluded
                                v2_config_path reverse]) in
  run_v2_integration args w
  = if len_is_zero compositions then
      (Raise (Exception ("No terraform compositions were detected in "
                         +:+ v2_config_path +:+ ".")), w1)
    else run_v2_compositions args v2_config_path (v2_terraform_path args)
                             compositions w1.
Proof.
  intros Hs Ho Ht He. cbv zeta.
  unfold run_v2_integration, tf_get_sorted_compositions. unfold_m.
  rewrite Hs, Ho, Ht, He. cbn [fst snd trace environ conf].
  by destruct (len_is_zero _).
Qed.

(** Multi-unit mode never changes the environment and adds only its own
    events, with or without a failure. *)
Lemma run_v2_integration_invariant args w :
  let out := run_v2_integration args w in
  environ out.2 = environ w
  /\ exists new, trace out.2 = trace w ++ new /\ Forall (v2_event args) new.
Proof.
  cbv zeta.
  assert (Hnone : forall (r : result Z),
            environ (r, w).2 = environ w
            /\ exists new, trace (r, w).2 = trace w ++ new
                           /\ Forall (v2_event args) new).
  { intros r. split; [done |]. exists []. by rewrite app_nil_r. }
  destruct (py_getitem ops_config_config "compositions")
    as [section | e] eqn:Hs.
  2:{ unfold run_v2_integration. unfold_m. rewrite Hs. apply Hnone. }
  destruct (py_getitem section "order") as [orders | e] eqn:Ho.
  2:{ unfold run_v2_integration. unfold_m. rewrite Hs, Ho. apply Hnone. }
  destruct (py_getitem orders "terraform") as [order | e] eqn:Ht.
  2:{ unfold run_v2_integration. unfold_m. rewrite Hs, Ho, Ht.
      apply Hnone. }
  destruct (py_getitem section "excluded_config_keys")
    as [excluded | e] eqn:He.
  2:{ unfold run_v2_integration. unfold_m. rewrite Hs, Ho, Ht, He.
      apply Hnone. }
  rewrite (run_v2_integration_resolved args w section orders order
             excluded) by done.
  assert (Hres : v2_event args
                   (GetSortedCompositions order excluded v2_config_path
                      (String.eqb "destroy" (subcommand args)))).
  { by split. }
  destruct (len_is_zero _).
  { unfold with_trace. cbn [snd environ trace]. split; [done |].
    eexists. split; [done |]. by constructor. }
  match goal with
  | |- context [run_v2_compositions args ?cp ?tp ?comps ?w1] =>
      destruct (run_v2_loop_invariant args cp tp comps false 0 w1)
        as (Henv & (new & Htr & Hnew) & _)
  end.
  split; [exact Henv |].
  eexists. split.
  { unfold run_v2_compositions. rewrite Htr. unfold with_trace.
    cbn [trace]. by rewrite <- app_assoc. }
  constructor; [exact Hres |].
  eapply Forall_impl; [exact Hnew |].
  intros e He'. by destruct e.
Qed.

(** C2. Empty-composition fatal stop. When the resolver returns no
    composition, multi-unit mode raises (it returns no exit status), and
    all it has done by then is the resolver call: no file was generated,
    no command built or executed, nothing changed in the configuration or
    the environment. *)
Theorem no_compositions_is_fatal args w section orders order excluded :
  py_getitem ops_config_config "compositions" = Ok section ->
  py_getitem section "order" = Ok orders ->
  py_getitem orders "terraform" = Ok order ->
  py_getitem section "excluded_config_keys" = Ok excluded ->
  get_sorted_compositions order excluded v2_config_path
    (String.eqb "destroy" (subcommand args)) = [] ->
  let out := run_v2_integration args w in
  out.1 = Raise (Exception ("No terraform compositions were detected in "
                            +:+ os_path_join cluster_config_path ""
                            +:+ "."))
  /\ trace out.2
     = trace w ++ [GetSortedCompositions order excluded v2_config_path
                     (String.eqb "destroy" (subcommand args))]
  /\ generated_units (trace out.2) = generated_units (trace w)
  /\ executed_commands (trace out.2) = executed_commands (trace w)
  /\ conf out.2 = conf w
  /\ environ out.2 = environ w.
Proof.
  intros Hs Ho Ht He Hempty. cbv zeta.
  rewrite (run_v2_integration_resolved args w section orders order
             excluded) by done.
  rewrite Hempty. unfold with_trace. cbn [len_is_zero length Nat.eqb].
  cbn [fst snd trace conf environ].
  unfold generated_units, executed_commands. rewrite !omap_app. simpl.
  by rewrite !app_nil_r.
Qed.

(** C3. Destroy reversal. Multi-unit mode calls the resolver once, with
    [reverse] true exactly when the subcommand is "destroy"; for each of
    the other subcommands the parser lists, [reverse] is false. *)
Theorem resolver_reverse_iff_destroy args w section orders order excluded :
  py_getitem ops_config_config "compositions" = Ok section ->
  py_getitem section "order" = Ok orders ->
  py_getitem orders "terraform" = Ok order ->
  py_getitem section "excluded_config_keys" = Ok excluded ->
  exists reverse rest,
    trace (run_v2_integration args w).2
    = trace w ++ GetSortedCompositions order excluded v2_config_path
                   reverse :: rest
    /\ List.filter is_resolve rest = []
    /\ (reverse = true <-> subcommand args = "destroy")
    /\ (subcommand args ∈ ["apply"; "console"; "import"; "output"; "plan";
                           "refresh"; "show"; "taint"; "template";
                           "untaint"; "validate"] -> reverse = false).
Proof.
  intros Hs Ho Ht He.
  exists (String.eqb "destroy" (subcommand args)).
  rewrite (run_v2_integration_resolved args w section orders order
             excluded) by done.
  cbv zeta.
  assert (Hiff : String.eqb "destroy" (subcommand args) = true
                 <-> subcommand args = "destroy").
  { rewrite String.eqb_eq. split; congruence. }
  assert (Hothers :
            subcommand args ∈ ["apply"; "console"; "import"; "output";
                               "plan"; "refresh"; "show"; "taint";
                               "template"; "untaint"; "validate"] ->
            String.eqb "destroy" (subcommand args) = false).
  { intros Hin. apply String.eqb_neq. intros Heq.
    rewrite <- Heq in Hin. apply list_elem_of_In in Hin.
    simpl in Hin.
    repeat (destruct Hin as [Hin | Hin]; [discriminate Hin |]).
    exact Hin. }
  destruct (len_is_zero _).
  { exists []. unfold with_trace. cbn [snd trace].
    split; [done |]. split; [done |]. split; [exact Hiff | exact Hothers]. }
  match goal with
  | |- context [run_v2_compositions args ?cp ?tp ?comps ?w1] =>
      destruct (run_v2_loop_invariant args cp tp comps false 0 w1)
        as (_ & (new & Htr & Hnew) & _)
  end.
  exists new. split.
  { unfold run_v2_compositions. rewrite Htr. unfold with_trace.
    cbn [trace]. by rewrite <- app_assoc. }
  split; [| split; [exact Hiff | exact Hothers]].
  clear Htr. induction Hnew as [| e new He' _ IH]; [done |].
  simpl. by destruct e.
Qed.

(** ** [run] *)

(** [run] once the version gate has let it through. *)
Lemma run_prepared args w :
  (check_ops_version w).1 = Ok tt ->
  run args w
  = match fs cluster_config_path with
    | Some Directory =>
        (result_map RStatus (run_v2_integration args (prepared w)).1,
         (run_v2_integration args (prepared w)).2)
    | _ =>
        (result_map RCommand (run_v1_integration args (prepared w)).1,
         (run_v1_integration args (prepared w)).2)
    end.
Proof.
  intros Hgate. pose proof (check_ops_version_world w) as Hworld.
  unfold run, os_path_isdir. unfold_m.
  destruct (check_ops_version w) as [r w0]. simpl in Hgate, Hworld.
  subst r w0. cbn [fst snd environ conf trace].
  rewrite <- !app_assoc. cbn [app].
  fold (resolved_config_file w). fold (prepared w).
  destruct (fs cluster_config_path) as [[|] |]; cbn [fst snd].
  - by destruct (run_v1_integration args (prepared w)) as [[c | e] w'].
  - by destruct (run_v2_integration args (prepared w)) as [[c | e] w'].
  - by destruct (run_v1_integration args (prepared w)) as [[c | e] w'].
Qed.

Lemma v2_events_quiet args l :
  Forall (v2_event args) l ->
  List.filter is_isdir l = [] /\ List.filter is_set_env l = [].
Proof.
  induction 1 as [| e l He _ [IH1 IH2]]; [done |].
  simpl. by destruct e.
Qed.

(** Whichever mode runs, it runs after the preparation, keeps the
    environment, and neither asks for the mode nor sets the variable
    again. *)
Lemma run_after_prepared args w :
  (check_ops_version w).1 = Ok tt ->
  environ (run args w).2 = environ (prepared w)
  /\ exists rest,
       trace (run args w).2 = trace (prepared w) ++ rest
       /\ List.filter is_isdir rest = []
       /\ List.filter is_set_env rest = [].
Proof.
  intros Hgate. rewrite run_prepared by done.
  assert (Hv1 :
    environ (run_v1_integration args (prepared w)).2 = environ (prepared w)
    /\ exists rest,
         trace (run_v1_integration args (prepared w)).2
         = trace (prepared w) ++ rest
         /\ List.filter is_isdir rest = []
         /\ List.filter is_set_env rest = []).
  { split; [done |]. by exists [Generate args (conf w)]. }
  destruct (fs cluster_config_path) as [[|] |]; cbn [snd]; try exact Hv1.
  destruct (run_v2_integration_invariant args (prepared w))
    as (Henv & new & Htr & Hnew).
  split; [exact Henv |]. exists new. split; [exact Htr |].
  by apply (v2_events_quiet args).
Qed.

(** C5. Mode dispatch. A version gate that raises ends [run] before any
    mode is chosen. Past the gate, [run] prepares the environment and then
    asks once whether the cluster configuration path is a directory: if it
    is, the outcome is that of multi-unit mode; if it is a single file, that
    of single-unit mode. *)
Theorem run_mode_dispatch args w :
  (forall e, (check_ops_version w).1 = Raise e -> run args w = (Raise e, w))
  /\ ((check_ops_version w).1 = Ok tt ->
      let out := run args w in
      (fs cluster_config_path = Some Directory ->
         out = (result_map RStatus (run_v2_integration args (prepared w)).1,
                (run_v2_integration args (prepared w)).2))
      /\ (fs cluster_config_path = Some RegularFile ->
            out = (result_map RCommand
                     (run_v1_integration args (prepared w)).1,
                   (run_v1_integration args (prepared w)).2))
      /\ (exists rest,
            trace out.2
            = trace w
              ++ [ SetEnv "TF_CLI_CONFIG_FILE" (resolved_config_file w);
                   LogSetEnv (resolved_config_file w);
                   IsDir cluster_config_path ] ++ rest
            /\ List.filter is_isdir rest = [])
      /\ length (List.filter is_isdir (trace out.2))
         = S (length (List.filter is_isdir (trace w)))).
Proof.
  split.
  { intros e Hgate. pose proof (check_ops_version_world w) as Hworld.
    unfold run. unfold_m.
    destruct (check_ops_version w) as [r w0]. simpl in Hgate, Hworld.
    by subst r w0. }
  intros Hgate. cbv zeta.
  destruct (run_after_prepared args w Hgate)
    as (_ & rest & Htr & Hdir & _).
  split; [| split; [| split]].
  - intros Hfs. by rewrite run_prepared, Hfs.
  - intros Hfs. by rewrite run_prepared, Hfs.
  - exists rest. split; [| exact Hdir].
    rewrite Htr. unfold prepared. cbn [trace]. by rewrite <- app_assoc.
  - rewrite Htr. unfold prepared. cbn [trace].
    rewrite !List.filter_app, Hdir, !length_app. simpl. lia.
Qed.

(** C6. Environment preparation. Past the version gate, [run] resolves
    the tool configuration path to the value [TF_CLI_CONFIG_FILE] already
    has, or else to the configured default, and sets the variable to it:
    once, ahead of the mode decision and of everything the mode does. A
    variable that was already set keeps its value. *)
Theorem environment_preparation args w :
  (check_ops_version w).1 = Ok tt ->
  let out := run args w in
  let path := resolved_config_file w in
  (forall v, environ w !! "TF_CLI_CONFIG_FILE" = Some v ->
     path = v /\ environ out.2 = environ w)
  /\ (environ w !! "TF_CLI_CONFIG_FILE" = None ->
        path = terraform_config_path)
  /\ environ out.2 = <["TF_CLI_CONFIG_FILE" := path]> (environ w)
  /\ exists rest,
       trace out.2 = trace w ++ SetEnv "TF_CLI_CONFIG_FILE" path :: rest
       /\ List.filter is_set_env rest = []
       /\ executed_commands (trace out.2)
          = executed_commands (trace w) ++ executed_commands rest
       /\ List.filter is_isdir (trace out.2)
          = List.filter is_isdir (trace w) ++ List.filter is_isdir rest.
Proof.
  intros Hgate. cbv zeta.
  destruct (run_after_prepared args w Hgate)
    as (Henv & rest & Htr & _ & Hset).
  split; [| split; [| split]].
  - intros v Hv. unfold resolved_config_file in *.
    rewrite Henv. unfold prepared, resolved_config_file. cbn [environ].
    rewrite Hv. simpl. split; [done |]. by apply insert_id.
  - intros Hv. unfold resolved_config_file. by rewrite Hv.
  - exact Henv.
  - exists ([LogSetEnv (resolved_config_file w);
             IsDir cluster_config_path] ++ rest).
    split; [| split; [| split]].
    + rewrite Htr. unfold prepared. cbn [trace].
      by rewrite <- app_assoc.
    + by rewrite List.filter_app, Hset.
    + rewrite Htr. unfold prepared. cbn [trace].
      unfold executed_commands. rewrite !omap_app. simpl.
      by rewrite app_nil_r.
    + rewrite Htr. unfold prepared. cbn [trace].
      rewrite !List.filter_app. simpl. by rewrite <- app_assoc.
Qed.

(** ** More on the loop: what holds whatever the collaborators do *)

Lemma skipped_units_skipping subcmd l :
  skipped_units (map (LogSkipping subcmd) l) = l.
Proof.
  induction l as [| c l IH]; [done |].
  change (c :: skipped_units (map (LogSkipping subcmd) l) = c :: l).
  by rewrite IH.
Qed.

Lemma failed_units_skipping subcmd l :
  failed_units (map (LogSkipping subcmd) l) = [].
Proof. induction l as [| c l IH]; [done |]. exact IH. Qed.

Lemma generated_units_app tr tr' :
  generated_units (tr ++ tr') = generated_units tr ++ generated_units tr'.
Proof. apply omap_app. Qed.

Lemma executed_commands_app tr tr' :
  executed_commands (tr ++ tr')
  = executed_commands tr ++ executed_commands tr'.
Proof. apply omap_app. Qed.

Lemma skipped_units_app tr tr' :
  skipped_units (tr ++ tr') = skipped_units tr ++ skipped_units tr'.
Proof. apply omap_app. Qed.

Lemma failed_units_app tr tr' :
  failed_units (tr ++ tr') = failed_units tr ++ failed_units tr'.
Proof. apply omap_app. Qed.

(** The books of a loop entered with the halt flag clear and [rc0] as the
    exit status so far. *)
Lemma run_v2_loop_accounting args cp tp comps rc0 w :
  exists new,
    trace (run_v2_loop args cp tp comps false rc0 w).2 = trace w ++ new
    /\ match (run_v2_loop args cp tp comps false rc0 w).1 with
       | Ok rc =>
           generated_units new ++ skipped_units new = comps
           /\ length (executed_commands new) = length (generated_units new)
           /\ ((rc <> 0
                /\ exists c, last (generated_units new) = Some c
                             /\ failed_units new = [c])
               \/ (failed_units new = [] /\ skipped_units new = []
                   /\ (rc = 0 \/ (generated_units new = [] /\ rc = rc0))))
       | Raise e =>
           (exists rest, generated_units new ++ rest = comps)
           /\ S (length (executed_commands new))
              = length (generated_units new)
           /\ skipped_units new = [] /\ failed_units new = []
       end.
Proof.
  revert rc0 w. induction comps as [| c comps IH]; intros rc0 w.
  { exists []. simpl. rewrite app_nil_r. split; [done |].
    split; [done |]. split; [done |]. right. by auto. }
  rewrite run_v2_loop_unit.
  destruct (unit_render cp tp w 0 c) as [e |].
  { eexists. unfold with_trace. cbn [fst snd trace]. split; [done |].
    split; [by exists comps |]. done. }
  cbv zeta.
  assert (Hg : generated_units (unit_events args cp tp (conf w) c) = [c])
    by reflexivity.
  assert (He : executed_commands (unit_events args cp tp (conf w) c)
               = [unit_command args tp (conf w) c]) by reflexivity.
  assert (Hs : skipped_units (unit_events args cp tp (conf w) c) = [])
    by reflexivity.
  assert (Hf : failed_units (unit_events args cp tp (conf w) c) = [])
    by reflexivity.
  destruct (Z.eqb_spec (unit_status args tp w 0 c) 0) as [Hz | Hnz];
    cbn [negb].
  - rewrite Hz.
    destruct (IH 0 (after_units args cp tp [c] w)) as (new & Htr & Hacc).
    exists (unit_events args cp tp (conf w) c ++ new).
    split.
    { rewrite Htr. unfold after_units. cbn [trace flat_map].
      by rewrite app_nil_r, <- app_assoc. }
    rewrite generated_units_app, executed_commands_app, skipped_units_app,
      failed_units_app, Hg, He, Hs, Hf.
    cbn [app length].
    destruct (run_v2_loop args cp tp comps false 0
                (after_units args cp tp [c] w)).1 as [rc | e].
    + destruct Hacc as (Hsplit & Hlen & Hcase).
      split; [by rewrite Hsplit |]. split; [by rewrite Hlen |].
      destruct Hcase as [(Hrc & c' & Hlast & Hfail)
                        | (Hfail & Hskip & Hrc)].
      * left. split; [done |]. exists c'. split; [| done].
        destruct (generated_units new) as [| g gs]; [done |]. exact Hlast.
      * right. split; [done |]. split; [done |].
        left. by destruct Hrc as [-> | [_ ->]].
    + destruct Hacc as ((rest & Hsplit) & Hlen & Hskip & Hfail).
      split; [exists rest; by rewrite Hsplit |].
      by rewrite Hlen.
  - rewrite run_v2_loop_halted.
    exists (unit_events args cp tp (conf w) c
            ++ [LogFailed c]
            ++ map (LogSkipping (subcommand args)) comps).
    unfold with_trace, after_units. cbn [fst snd trace flat_map].
    split.
    { by rewrite app_nil_r, <- !app_assoc. }
    rewrite !generated_units_app, !executed_commands_app,
      !skipped_units_app, !failed_units_app, Hg, He, Hs, Hf.
    rewrite generated_units_skipping, executed_commands_skipping,
      skipped_units_skipping, failed_units_skipping.
    simpl. split; [done |]. split; [done |].
    left. split; [done |]. by exists c.
Qed.

(** X6. The books of the run loop, for any exit statuses and rendering
    failures. When the loop returns, every composition was either generated
    or reported skipped, the generated ones first and in order, and each
    generated unit was executed; the result is 0 exactly when nothing was
    skipped or reported failed, and a non-zero result comes with one failure
    notice, for the last unit generated. When rendering raises instead, the
    units generated are a prefix of the list, the last of them was not
    executed, and no notice was logged. *)
Theorem run_v2_compositions_accounting args cp tp comps w :
  exists new,
    trace (run_v2_compositions args cp tp comps w).2 = trace w ++ new
    /\ match (run_v2_compositions args cp tp comps w).1 with
       | Ok rc =>
           generated_units new ++ skipped_units new = comps
           /\ length (executed_commands new) = length (generated_units new)
           /\ (rc = 0 -> skipped_units new = [] /\ failed_units new = [])
           /\ (rc <> 0 ->
               exists c, last (generated_units new) = Some c
                         /\ failed_units new = [c])
       | Raise e =>
           (exists rest, generated_units new ++ rest = comps)
           /\ S (length (executed_commands new))
              = length (generated_units new)
           /\ skipped_units new = [] /\ failed_units new = []
       end.
Proof.
  unfold run_v2_compositions.
  destruct (run_v2_loop_accounting args cp tp comps 0 w)
    as (new & Htr & Hacc).
  exists new. split; [exact Htr |].
  destruct (run_v2_loop args cp tp comps false 0 w).1 as [rc | e];
    [| exact Hacc].
  destruct Hacc as (Hsplit & Hlen & Hcase).
  split; [exact Hsplit |]. split; [exact Hlen |].
  destruct Hcase as [(Hrc & Hfail) | (Hfail & Hskip & Hrc)].
  - split; [by intros ? | by intros _].
  - split; [by intros _ |].
    intros Hnz. by destruct Hrc as [? | [_ ?]].
Qed.

(** X5. No leak from one unit to the next. Injecting a unit after another
    one was injected gives the same command and the same configuration as
    injecting it straight away: the second call overwrites all the first
    one wrote. *)
Theorem second_injection_overwrites args args' tp tp' c c' w :
  let w1 := (run_v2_composition args' tp' c' w).2 in
  (run_v2_composition args tp c w1).1 = (run_v2_composition args tp c w).1
  /\ conf (run_v2_composition args tp c w1).2
     = conf (run_v2_composition args tp c w).2
  /\ environ (run_v2_composition args tp c w1).2 = environ w.
Proof.
  cbv zeta. rewrite !run_v2_composition_spec. cbn [fst snd conf environ].
  by rewrite unit_command_inject, inject_inject.
Qed.

(** X4. Injection drops the version requirement. After one call of
    [run_v2_composition] the [terraform] mapping holds the unit's two keys
    only, so [check_ops_version] lets that world through whatever minimum
    the configuration declared before and whatever version is running. *)
Theorem injection_clears_version_requirement args tp c w :
  check_ops_version (run_v2_composition args tp c w).2
  = (Ok tt, (run_v2_composition args tp c w).2).
Proof.
  rewrite run_v2_composition_spec. cbn [snd].
  apply (check_ops_version_undeclared _
           (<["variables_file" := VStr "variables.tfvars.json"]>
              (<["path" := VStr (tp +:+ c)]> ∅))).
  - cbn [conf]. unfold inject. rewrite lookup_insert_ne by done.
    by rewrite lookup_insert_eq.
  - rewrite lookup_insert_ne by done.
    by rewrite lookup_insert_ne, lookup_empty.
Qed.

(** X8. A [terraform] entry that is not a mapping. With [terraform] set to
    null, a boolean or a number the gate raises TypeError; with a text or a
    list it raises TypeError when "ops_min_version" occurs in the text or
    is an element of the list, and passes otherwise. The world is
    unchanged in every case. *)
Theorem check_ops_version_malformed_section w tf :
  conf w !! "terraform" = Some tf ->
  match tf with
  | VNone | VBool _ | VInt _ | VFloat _ =>
      check_ops_version w = (Raise TypeError, w)
  | VStr s =>
      check_ops_version w
      = (if str_contains "ops_min_version" s then Raise TypeError
         else Ok tt, w)
  | VList l =>
      check_ops_version w
      = (if existsb (fun x => match x with
                              | VStr s => String.eqb s "ops_min_version"
                              | _ => false
                              end) l
         then Raise TypeError else Ok tt, w)
  | VDict _ => (check_ops_version w).2 = w
  end.
Proof.
  intros Htf.
  destruct tf as [| b | n | text | s | l | d];
    try (unfold check_ops_version; unfold_m;
         rewrite bool_decide_eq_true_2 by (rewrite Htf; eauto);
         simpl; rewrite Htf; simpl; try done;
         match goal with
         | |- context [if ?b then _ else _] => by destruct b
         end).
  apply check_ops_version_world.
Qed.

(** X2. Missing settings. When the orchestrator settings lack
    [compositions], or its [order], or the [terraform] entry of that, or
    [excluded_config_keys], multi-unit mode raises KeyError for the first
    missing key in that order, before it calls the resolver or does
    anything else. *)
Theorem missing_settings_raise args w settings :
  ops_config_config = VDict settings ->
  (settings !! "compositions" = None ->
     run_v2_integration args w = (Raise (KeyError "compositions"), w))
  /\ (forall s,
        settings !! "compositions" = Some (VDict s) ->
        s !! "order" = None ->
        run_v2_integration args w = (Raise (KeyError "order"), w))
  /\ (forall s o,
        settings !! "compositions" = Some (VDict s) ->
        s !! "order" = Some (VDict o) ->
        o !! "terraform" = None ->
        run_v2_integration args w = (Raise (KeyError "terraform"), w))
  /\ (forall s o order,
        settings !! "compositions" = Some (VDict s) ->
        s !! "order" = Some (VDict o) ->
        o !! "terraform" = Some order ->
        s !! "excluded_config_keys" = None ->
        run_v2_integration args w
        = (Raise (KeyError "excluded_config_keys"), w)).
Proof.
  intros Hsettings.
  split; [| split; [| split]].
  - intros H1. unfold run_v2_integration. unfold_m.
    rewrite Hsettings. simpl. by rewrite H1.
  - intros s H1 H2. unfold run_v2_integration. unfold_m.
    rewrite Hsettings. simpl. rewrite H1. simpl. by rewrite H2.
  - intros s o H1 H2 H3. unfold run_v2_integration. unfold_m.
    rewrite Hsettings. simpl. rewrite H1. simpl. rewrite H2. simpl.
    by rewrite H3.
  - intros s o order H1 H2 H3 H4. unfold run_v2_integration. unfold_m.
    rewrite Hsettings. simpl. rewrite H1. simpl. rewrite H2. simpl.
    rewrite H3. simpl. by rewrite H4.
Qed.

(** ** More on [run] *)

Lemma run_gate_raises args w e :
  (check_ops_version w).1 = Raise e -> run args w = (Raise e, w).
Proof.
  intros Hgate. pose proof (check_ops_version_world w) as Hworld.
  unfold run. unfold_m.
  destruct (check_ops_version w) as [r w0]. simpl in Hgate, Hworld.
  by subst r w0.
Qed.

(** X1. Single-unit mode. Past the version gate, when the cluster
    configuration path is not a directory (a file, or nothing at all),
    [run] returns the command built from the configuration as it stands. It
    does not invoke the executor or the renderer and leaves the
    configuration unchanged; executing the command is left to the caller. *)
Theorem single_unit_mode_returns_command args w :
  (check_ops_version w).1 = Ok tt ->
  fs cluster_config_path <> Some Directory ->
  let out := run args w in
  out.1 = Ok (RCommand (generate args (conf w)))
  /\ trace out.2 = trace (prepared w) ++ [Generate args (conf w)]
  /\ executed_commands (trace out.2) = executed_commands (trace w)
  /\ generated_units (trace out.2) = generated_units (trace w)
  /\ conf out.2 = conf w.
Proof.
  intros Hgate Hfs. cbv zeta. rewrite run_prepared by done.
  assert (Hv1 : run_v1_integration args (prepared w)
                = (Ok (generate args (conf w)),
                   with_trace (prepared w)
                     (trace (prepared w) ++ [Generate args (conf w)])))
    by reflexivity.
  destruct (fs cluster_config_path) as [[|] |]; [| done |];
    rewrite Hv1; unfold with_trace, prepared; cbn [fst snd trace conf];
    rewrite !executed_commands_app, !generated_units_app;
    simpl; by rewrite !app_nil_r.
Qed.

Lemma run_v2_integration_conf_frame args w (key : string) :
  key <> "terraform" -> key <> "cluster" ->
  conf (run_v2_integration args w).2 !! key = conf w !! key.
Proof.
  intros Ht Hc.
  destruct (py_getitem ops_config_config "compositions")
    as [section | e] eqn:Hs.
  2:{ unfold run_v2_integration. unfold_m. by rewrite Hs. }
  destruct (py_getitem section "order") as [orders | e] eqn:Ho.
  2:{ unfold run_v2_integration. unfold_m. by rewrite Hs, Ho. }
  destruct (py_getitem orders "terraform") as [order | e] eqn:Hord.
  2:{ unfold run_v2_integration. unfold_m. by rewrite Hs, Ho, Hord. }
  destruct (py_getitem section "excluded_config_keys")
    as [excluded | e] eqn:He.
  2:{ unfold run_v2_integration. unfold_m. by rewrite Hs, Ho, Hord, He. }
  rewrite (run_v2_integration_resolved args w section orders order
             excluded) by done.
  cbv zeta. destruct (len_is_zero _); [done |].
  match goal with
  | |- context [run_v2_compositions args ?cp ?tp ?comps ?w1] =>
      destruct (run_v2_loop_invariant args cp tp comps false 0 w1)
        as (_ & _ & Hconf)
  end.
  unfold run_v2_compositions. by rewrite Hconf.
Qed.

(** X7. What [run] leaves alone. However a run ends (gate refusal,
    missing settings, no compositions, a rendering failure, a failing or a
    successful unit), every environment variable other than
    TF_CLI_CONFIG_FILE and every configuration key other than [terraform]
    and [cluster] has the value it had before. *)
Theorem run_frame args w (variable key : string) :
  variable <> "TF_CLI_CONFIG_FILE" ->
  key <> "terraform" -> key <> "cluster" ->
  environ (run args w).2 !! variable = environ w !! variable
  /\ conf (run args w).2 !! key = conf w !! key.
Proof.
  intros Hv Ht Hc.
  destruct (check_ops_version w).1 as [[] | e] eqn:Hgate.
  2:{ by rewrite (run_gate_raises args w e). }
  rewrite run_prepared by done.
  assert (Henv : environ (prepared w) !! variable = environ w !! variable).
  { unfold prepared. cbn [environ]. by rewrite lookup_insert_ne. }
  assert (Hv1 : environ (run_v1_integration args (prepared w)).2
                  !! variable = environ w !! variable
                /\ conf (run_v1_integration args (prepared w)).2 !! key
                   = conf w !! key).
  { by split. }
  destruct (fs cluster_config_path) as [[|] |]; cbn [snd]; try exact Hv1.
  destruct (run_v2_integration_invariant args (prepared w)) as (He & _).
  split; [by rewrite He |].
  by rewrite run_v2_integration_conf_frame.
Qed.

Lemma str_endswith_sep_app a : str_endswith_sep (a +:+ "/") = true.
Proof.
  induction a as [| ch a IH]; [done |].
  simpl. destruct a; [done |]. exact IH.
Qed.

Lemma os_path_join_empty a :
  os_path_join a ""
  = if String.eqb a "" || str_endswith_sep a then a else a +:+ "/".
Proof.
  unfold os_path_join. simpl.
  assert (Hnil : forall s : string, s +:+ "" = s).
  { induction s as [| ch s IH]; [done |].
    change (String ch (s +:+ "") = String ch s). by f_equal. }
  destruct (String.eqb a "" || str_endswith_sep a); [apply Hnil |].
  by rewrite Hnil.
Qed.

(** X3. The configuration path of multi-unit mode. It is the cluster
    configuration path with one separator appended unless the path is empty
    or already ends in one; so it ends in a separator whenever the path is
    not empty, and normalising twice changes nothing. *)
Theorem config_path_normalised :
  v2_config_path
  = (if String.eqb cluster_config_path ""
        || str_endswith_sep cluster_config_path
     then cluster_config_path else cluster_config_path +:+ "/")
  /\ (cluster_config_path <> "" -> str_endswith_sep v2_config_path = true)
  /\ os_path_join v2_config_path "" = v2_config_path.
Proof.
  unfold v2_config_path. rewrite os_path_join_empty.
  split; [done |].
  destruct (String.eqb_spec cluster_config_path "") as [Hempty | Hne].
  { simpl. split; [done |]. by rewrite Hempty. }
  simpl. destruct (str_endswith_sep cluster_config_path) eqn:Hsep.
  - split; [done |]. by rewrite os_path_join_empty, Hsep, orb_true_r.
  - split; [intros _; apply str_endswith_sep_app |].
    by rewrite os_path_join_empty, str_endswith_sep_app, orb_true_r.
Qed.

(** The world in which the loop of a directory run starts. *)
Lemma run_multi_unit_start args w section orders order excluded :
  (check_ops_version w).1 = Ok tt ->
  fs cluster_config_path = Some Directory ->
  py_getitem ops_config_config "compositions" = Ok section ->
  py_getitem section "order" = Ok orders ->
  py_getitem orders "terraform" = Ok order ->
  py_getitem section "excluded_config_keys" = Ok excluded ->
  let reverse := String.eqb "destroy" (subcommand args) in
  let comps := get_sorted_compositions order excluded v2_config_path
                 reverse in
  let w1 := with_trace (prepared w)
              (trace (prepared w)
               ++ [GetSortedCompositions order excluded v2_config_path
                     reverse]) in
  comps <> [] ->
  run args w
  = (result_map RStatus
       (run_v2_compositions args v2_config_path (v2_terraform_path args)
          comps w1).1,
     (run_v2_compositions args v2_config_path (v2_terraform_path args)
        comps w1).2).
Proof.
  intros Hgate Hfs Hs Ho Hord He. cbv zeta. intros Hne.
  rewrite run_prepared, Hfs by done.
  rewrite (run_v2_integration_resolved args (prepared w) section orders
             order excluded) by done.
  cbv zeta.
  destruct (get_sorted_compositions order excluded v2_config_path
              (String.eqb "destroy" (subcommand args))); [done |].
  reflexivity.
Qed.

(** X9. A directory run from end to end. Past the version gate, with the
    settings present and a non-empty resolved list whose units all render:
    if every unit returns 0, [run] returns status 0 and has executed the
    command of every resolved unit, in the resolved order; if unit [j]
    (counted from 0) is the first to return non-zero, [run] returns that
    status and has executed the commands of units 0..j only. Each command
    is built from the initial configuration with that unit's [terraform]
    mapping and the run's [cluster] identity injected. *)
Theorem run_multi_unit_outcome args w section orders order excluded :
  (check_ops_version w).1 = Ok tt ->
  fs cluster_config_path = Some Directory ->
  py_getitem ops_config_config "compositions" = Ok section ->
  py_getitem section "order" = Ok orders ->
  py_getitem orders "terraform" = Ok order ->
  py_getitem section "excluded_config_keys" = Ok excluded ->
  let comps := get_sorted_compositions order excluded v2_config_path
                 (String.eqb "destroy" (subcommand args)) in
  let tp := v2_terraform_path args in
  let out := run args w in
  comps <> [] ->
  (forall i c, comps !! i = Some c ->
     unit_render v2_config_path tp w i c = None) ->
  ((forall i c, comps !! i = Some c -> unit_status args tp w i c = 0) ->
     out.1 = Ok (RStatus 0)
     /\ executed_commands (trace out.2)
        = executed_commands (trace w)
          ++ map (unit_command args tp (conf w)) comps
     /\ generated_units (trace out.2) = generated_units (trace w) ++ comps)
  /\ (forall j c,
        comps !! j = Some c ->
        (forall i c', (i < j)%nat -> comps !! i = Some c' ->
           unit_status args tp w i c' = 0) ->
        unit_status args tp w j c <> 0 ->
        out.1 = Ok (RStatus (unit_status args tp w j c))
        /\ executed_commands (trace out.2)
           = executed_commands (trace w)
             ++ map (unit_command args tp (conf w)) (take (S j) comps)
        /\ generated_units (trace out.2)
           = generated_units (trace w) ++ take (S j) comps
        /\ skipped_units (trace out.2)
           = skipped_units (trace w) ++ drop (S j) comps).
Proof.
  intros Hgate Hfs Hs Ho Hord He. cbv zeta. intros Hne Hrender.
  rewrite (run_multi_unit_start args w section orders order excluded)
    by done.
  cbv zeta.
  set (comps := get_sorted_compositions order excluded v2_config_path
                  (String.eqb "destroy" (subcommand args))) in *.
  set (w1 := with_trace (prepared w) _).
  assert (Hr1 : forall i c, unit_render v2_config_path
                              (v2_terraform_path args) w1 i c
                            = unit_render v2_config_path
                                (v2_terraform_path args) w i c).
  { intros i c. unfold unit_render, w1, with_trace, prepared.
    cbn [trace]. rewrite !renderings_app. simpl.
    by rewrite !Nat.add_0_r. }
  assert (Hs1 : forall i c, unit_status args (v2_terraform_path args) w1 i c
                            = unit_status args (v2_terraform_path args)
                                w i c).
  { intros i c. unfold unit_status, w1, with_trace, prepared.
    cbn [trace conf]. rewrite !executions_app. simpl.
    by rewrite !Nat.add_0_r. }
  assert (Htr1 : trace w1
                 = trace w
                   ++ [ SetEnv "TF_CLI_CONFIG_FILE" (resolved_config_file w);
                        LogSetEnv (resolved_config_file w);
                        IsDir cluster_config_path;
                        GetSortedCompositions order excluded v2_config_path
                          (String.eqb "destroy" (subcommand args)) ]).
  { unfold w1, with_trace, prepared. cbn [trace].
    by rewrite <- app_assoc. }
  assert (Hc1 : conf w1 = conf w) by reflexivity.
  split.
  - intros Hzero.
    rewrite run_v2_compositions_all_zero.
    2:{ intros i c Hi. by rewrite Hr1, Hs1, Hrender, Hzero. }
    unfold after_units. cbn [fst snd trace result_map].
    rewrite executed_commands_app, generated_units_app.
    rewrite executed_commands_units, generated_units_units.
    rewrite Htr1, Hc1, executed_commands_app, generated_units_app.
    simpl. by rewrite !app_nil_r.
  - intros j c Hj Hzero Hfail.
    rewrite (run_v2_compositions_first_failure args v2_config_path
               (v2_terraform_path args) comps w1 j c).
    2: done.
    2:{ intros i c' _ Hi. by rewrite Hr1, (Hrender i c'). }
    2:{ intros i c' Hlt Hi. rewrite Hs1. by apply Hzero. }
    2:{ by rewrite Hs1. }
    unfold with_trace. cbn [fst snd trace result_map].
    rewrite Hs1, Hc1, Htr1.
    change (LogFailed c :: map (LogSkipping (subcommand args))
                               (drop (S j) comps))
      with ([LogFailed c] ++ map (LogSkipping (subcommand args))
                                 (drop (S j) comps)).
    rewrite !executed_commands_app, !generated_units_app,
      !skipped_units_app.
    rewrite executed_commands_units, generated_units_units.
    rewrite executed_commands_skipping, generated_units_skipping,
      skipped_units_skipping.
    assert (Hnone : skipped_units
                      (flat_map (unit_events args v2_config_path
                                   (v2_terraform_path args) (conf w))
                         (take (S j) comps)) = []).
    { induction (take (S j) comps) as [| c' l IH]; [done |]. exact IH. }
    rewrite Hnone. simpl. by rewrite !app_nil_r.
Qed.

(** X10. Destroy tears down in reverse. Take a resolver whose reversed
    answer is the reverse of its plain answer. Two directory runs from the
    same world, one with subcommand "destroy" and one with any other
    subcommand, in which every unit renders and returns 0, generate (and so
    execute) the same units in opposite orders. *)
Theorem destroy_reverses_apply args_a args_d w section orders order excluded :
  (check_ops_version w).1 = Ok tt ->
  fs cluster_config_path = Some Directory ->
  py_getitem ops_config_config "compositions" = Ok section ->
  py_getitem section "order" = Ok orders ->
  py_getitem orders "terraform" = Ok order ->
  py_getitem section "excluded_config_keys" = Ok excluded ->
  subcommand args_a <> "destroy" ->
  subcommand args_d = "destroy" ->
  let forward := get_sorted_compositions order excluded v2_config_path
                   false in
  get_sorted_compositions order excluded v2_config_path true
  = rev forward ->
  forward <> [] ->
  (forall i c, forward !! i = Some c ->
     unit_render v2_config_path (v2_terraform_path args_a) w i c = None
     /\ unit_status args_a (v2_terraform_path args_a) w i c = 0) ->
  (forall i c, rev forward !! i = Some c ->
     unit_render v2_config_path (v2_terraform_path args_d) w i c = None
     /\ unit_status args_d (v2_terraform_path args_d) w i c = 0) ->
  (run args_a w).1 = Ok (RStatus 0)
  /\ (run args_d w).1 = Ok (RStatus 0)
  /\ generated_units (trace (run args_a w).2)
     = generated_units (trace w) ++ forward
  /\ generated_units (trace (run args_d w).2)
     = generated_units (trace w) ++ rev forward.
Proof.
  intros Hgate Hfs Hs Ho Hord He Ha Hd. cbv zeta.
  intros Hrev Hne Hfwd Hbwd.
  assert (Ea : String.eqb "destroy" (subcommand args_a) = false).
  { apply String.eqb_neq. congruence. }
  assert (Ed : String.eqb "destroy" (subcommand args_d) = true).
  { apply String.eqb_eq. congruence. }
  pose proof (run_multi_unit_outcome args_a w section orders order excluded
                Hgate Hfs Hs Ho Hord He) as Houta.
  pose proof (run_multi_unit_outcome args_d w section orders order excluded
                Hgate Hfs Hs Ho Hord He) as Houtd.
  cbv zeta in Houta, Houtd. rewrite Ea in Houta. rewrite Ed, Hrev in Houtd.
  destruct Houta as [Houta _]; [done | intros i c Hi; by apply Hfwd |].
  destruct Houtd as [Houtd _].
  { intros Hnil. apply Hne.
    apply (f_equal (@rev string)) in Hnil. by rewrite rev_involutive in Hnil. }
  { intros i c Hi. by apply Hbwd. }
  destruct Houta as (Hra & _ & Hga); [intros i c Hi; by apply Hfwd |].
  destruct Houtd as (Hrd & _ & Hgd); [intros i c Hi; by apply Hbwd |].
  by repeat split.
Qed.

End Runner.

Arguments environ {Command} w.
Arguments conf {Command} w.
Arguments trace {Command} w.
Arguments SetEnv {Command} key val.
Arguments IsDir {Command} path.
Arguments GetSortedCompositions {Command} order excluded config_path reverse.
Arguments GenerateFiles {Command} config_path terraform_path composition.
Arguments Generate {Command} args config.
Arguments Execute {Command} command.
Arguments LogSetEnv {Command} path.
Arguments LogRunning {Command} composition.
Arguments LogSkipping {Command} subcmd composition.
Arguments LogFailed {Command} composition.

(* ===================================================================== *)
(** ** The identity derived from the configuration path *)
(* ===================================================================== *)







(* ===================================================================== *)
(** ** The model on concrete inputs *)
(* ===================================================================== *)

Example md5_empty :
  MD5.hexdigest (MD5.encode_utf8 "") = "d41d8cd98f00b204e9800998ecf8427e"%string.
Proof. vm_compute. reflexivity. Qed.

Example md5_abc :
  MD5.hexdigest (MD5.encode_utf8 "abc") = "900150983cd24fb0d6963f7d28e17f72"%string.
Proof. vm_compute. reflexivity. Qed.

Example md5_long_path :
  MD5.hexdigest (MD5.encode_utf8
    "data/env=dev/region=va6/project=ee/cluster=experiments")
  = "a97935183956b6a38211fa539ebcabf3"%string.
Proof. vm_compute. reflexivity. Qed.

Example md5_block_boundary :
  MD5.hexdigest (MD5.encode_utf8
    "xxxxxxxxxxxxxxxxxxxxxxxxxxxxxxxxxxxxxxxxxxxxxxxxxxxxxxxx")
  = "668a72d5ba17f08e62dabcafad6db14b"%string.
Proof. vm_compute. reflexivity. Qed.

Example join_adds_separator : os_path_join "data/cluster=x" "" = "data/cluster=x/"%string.
Proof. reflexivity. Qed.

Example join_keeps_separator : os_path_join "data/cluster=x/" "" = "data/cluster=x/"%string.
Proof. reflexivity. Qed.

Example join_empty : os_path_join "" "" = ""%string.
Proof. reflexivity. Qed.


Example cluster_id_sample : cluster_id "clusters/qe1.yaml" = "86852a"%string.
Proof. vm_compute. reflexivity. Qed.

(** Six hex digits cannot tell all paths apart. *)
Example cluster_id_collision :
  cluster_id "clusters/c500" = cluster_id "clusters/c6537"
  /\ cluster_id "clusters/c500" = "2e8533"%string.
Proof. vm_compute. split; reflexivity. Qed.

(** The specification's version samples: running 2.0.0, a unit asking for
    2.1.0 is refused, one asking for 1.9.0 or for nothing passes. *)
Example version_gate_samples :
  (check_ops_version string "2.0.0" dotted_version_lt sample_repr
     (sample_world string (Some (VStr "2.1.0")))).1
  = Raise (VersionIncompatible "2.0.0" "2.1.0")
  /\ (check_ops_version string "2.0.0" dotted_version_lt sample_repr
        (sample_world string (Some (VStr "1.9.0")))).1 = Ok tt
  /\ (check_ops_version string "2.0.0" dotted_version_lt sample_repr
        (sample_world string None)).1 = Ok tt.
Proof. vm_compute. repeat split; reflexivity. Qed.

(** The specification's three-unit scenarios. *)
Example apply_runs_in_order :
  let out := run_v2_integration string sample_root sample_ops_config
               sample_resolver sample_render_ok sample_generate
               sample_status_all_zero (sample_args "apply")
               (sample_world string None) in
  out.1 = Ok 0
  /\ generated_units string (trace out.2) = ["network"; "compute"; "data"]
  /\ executed_commands string (trace out.2)
     = [ "apply ../ee-k8s-infra/compositions/terraform/network";
         "apply ../ee-k8s-infra/compositions/terraform/compute";
         "apply ../ee-k8s-infra/compositions/terraform/data" ]%string.
Proof. vm_compute. repeat split; reflexivity. Qed.

Example destroy_runs_in_reverse :
  let out := run_v2_integration string sample_root sample_ops_config
               sample_resolver sample_render_ok sample_generate
               sample_status_all_zero (sample_args "destroy")
               (sample_world string None) in
  out.1 = Ok 0
  /\ generated_units string (trace out.2) = ["data"; "compute"; "network"].
Proof. vm_compute. repeat split; reflexivity. Qed.

Example second_unit_fails :
  let out := run_v2_integration string sample_root sample_ops_config
               sample_resolver sample_render_ok sample_generate
               (sample_status_fails_at 1) (sample_args "apply")
               (sample_world string None) in
  out.1 = Ok 1
  /\ generated_units string (trace out.2) = ["network"; "compute"]
  /\ List.filter (is_notice string) (trace out.2)
     = [LogFailed "compute"; LogSkipping "apply" "data"].
Proof. vm_compute. repeat split; reflexivity. Qed.

(** *** The theorems at the sample run *)

Lemma run_v2_compositions_halt_semantics_witness :
  let args := sample_args "apply" in
  let w := sample_world string None in
  let status_of st := unit_status string sample_root sample_generate st
                        args sample_tp w in
  let render := unit_render string sample_render_ok sample_cp sample_tp w in
  let run st := run_v2_compositions string sample_root sample_render_ok
                  sample_generate st args sample_cp sample_tp
                  sample_order w in
  let events := unit_events string sample_root sample_generate args
                  sample_cp sample_tp (conf w) in
  let command := unit_command string sample_root sample_generate args
                   sample_tp (conf w) in
  ((1 <= 2)%nat
   /\ sample_order !! (2 - 1)%nat = Some "compute"%string
   /\ (forall i c', (i < 2)%nat -> sample_order !! i = Some c' ->
         render i c' = None)
   /\ (forall i c', (i < 2 - 1)%nat -> sample_order !! i = Some c' ->
         status_of (sample_status_fails_at 1) i c' = 0)
   /\ status_of (sample_status_fails_at 1) (2 - 1)%nat "compute" <> 0)
  /\ ((run (sample_status_fails_at 1)).1 = Ok 1
      /\ trace (run (sample_status_fails_at 1)).2
         = trace w ++ flat_map events ["network"; "compute"]%string
                   ++ [LogFailed "compute"; LogSkipping "apply" "data"]
      /\ generated_units string
           (flat_map events ["network"; "compute"]%string
            ++ [LogFailed "compute"; LogSkipping "apply" "data"])
         = ["network"; "compute"]%string
      /\ executed_commands string
           (flat_map events ["network"; "compute"]%string
            ++ [LogFailed "compute"; LogSkipping "apply" "data"])
         = map command ["network"; "compute"]%string)
  /\ (forall i c', sample_order !! i = Some c' ->
        render i c' = None /\ status_of sample_status_all_zero i c' = 0)
  /\ ((run sample_status_all_zero).1 = Ok 0
      /\ trace (run sample_status_all_zero).2
         = trace w ++ flat_map events sample_order
      /\ generated_units string (flat_map events sample_order)
         = sample_order
      /\ executed_commands string (flat_map events sample_order)
         = map command sample_order).
Proof.
  cbv zeta.
  assert (H1 : (1 <= 2)%nat) by lia.
  assert (H2 : sample_order !! (2 - 1)%nat = Some "compute"%string)
    by reflexivity.
  assert (H3 : forall i c', (i < 2)%nat -> sample_order !! i = Some c' ->
                 unit_render string sample_render_ok sample_cp sample_tp
                   (sample_world string None) i c' = None)
    by (intros; reflexivity).
  assert (H4 : forall i c', (i < 2 - 1)%nat -> sample_order !! i = Some c' ->
                 unit_status string sample_root sample_generate
                   (sample_status_fails_at 1) (sample_args "apply")
                   sample_tp (sample_world string None) i c' = 0).
  { intros i c' Hi _. destruct i; [reflexivity | lia]. }
  assert (H5 : unit_status string sample_root sample_generate
                 (sample_status_fails_at 1) (sample_args "apply") sample_tp
                 (sample_world string None) (2 - 1)%nat "compute" <> 0).
  { vm_compute. discriminate. }
  assert (H6 : forall i c', sample_order !! i = Some c' ->
                 unit_render string sample_render_ok sample_cp sample_tp
                   (sample_world string None) i c' = None
                 /\ unit_status string sample_root sample_generate
                      sample_status_all_zero (sample_args "apply") sample_tp
                      (sample_world string None) i c' = 0).
  { intros; split; reflexivity. }
  split; [by repeat split |].
  split.
  { exact (proj1 (run_v2_compositions_halt_semantics string sample_root
              sample_render_ok sample_generate (sample_status_fails_at 1)
              (sample_args "apply") sample_cp sample_tp sample_order
              (sample_world string None))
             2%nat "compute"%string H1 H2 H3 H4 H5). }
  split; [exact H6 |].
  exact (proj2 (run_v2_compositions_halt_semantics string sample_root
            sample_render_ok sample_generate sample_status_all_zero
            (sample_args "apply") sample_cp sample_tp sample_order
            (sample_world string None)) H6).
Defined.

Lemma no_compositions_is_fatal_witness :
  let args := sample_args "plan" in
  let w := sample_world string None in
  let out := run_v2_integration string "data/empty" sample_ops_config
               sample_resolver sample_render_ok sample_generate
               sample_status_all_zero args w in
  (py_getitem sample_ops_config "compositions" = Ok sample_section
   /\ py_getitem sample_section "order" = Ok sample_orders
   /\ py_getitem sample_orders "terraform"
      = Ok (VList (map VStr sample_order))
   /\ py_getitem sample_section "excluded_config_keys" = Ok (VList [])
   /\ sample_resolver (VList (map VStr sample_order)) (VList [])
        (v2_config_path "data/empty") (String.eqb "destroy" "plan") = [])
  /\ out.1 = Raise (Exception
                      "No terraform compositions were detected in data/empty/.")
  /\ trace out.2
     = [GetSortedCompositions (VList (map VStr sample_order)) (VList [])
          "data/empty/" false]
  /\ generated_units string (trace out.2) = []
  /\ executed_commands string (trace out.2) = []
  /\ conf out.2 = conf w
  /\ environ out.2 = environ w.
Proof.
  cbv zeta.
  assert (H1 : py_getitem sample_ops_config "compositions"
               = Ok sample_section) by (vm_compute; reflexivity).
  assert (H2 : py_getitem sample_section "order" = Ok sample_orders)
    by (vm_compute; reflexivity).
  assert (H3 : py_getitem sample_orders "terraform"
               = Ok (VList (map VStr sample_order)))
    by (vm_compute; reflexivity).
  assert (H4 : py_getitem sample_section "excluded_config_keys"
               = Ok (VList [])) by (vm_compute; reflexivity).
  assert (H5 : sample_resolver (VList (map VStr sample_order)) (VList [])
                 (v2_config_path "data/empty")
                 (String.eqb "destroy" (subcommand (sample_args "plan")))
               = []) by reflexivity.
  split; [by repeat split |].
  exact (no_compositions_is_fatal string "data/empty" sample_ops_config
           sample_resolver sample_render_ok sample_generate
           sample_status_all_zero (sample_args "plan")
           (sample_world string None) sample_section sample_orders
           (VList (map VStr sample_order)) (VList []) H1 H2 H3 H4 H5).
Defined.

Lemma resolver_reverse_iff_destroy_witness :
  (py_getitem sample_ops_config "compositions" = Ok sample_section
   /\ py_getitem sample_section "order" = Ok sample_orders
   /\ py_getitem sample_orders "terraform"
      = Ok (VList (map VStr sample_order))
   /\ py_getitem sample_section "excluded_config_keys" = Ok (VList []))
  /\ exists reverse rest,
       trace (run_v2_integration string sample_root sample_ops_config
                sample_resolver sample_render_ok sample_generate
                sample_status_all_zero (sample_args "destroy")
                (sample_world string None)).2
       = trace (sample_world string None)
         ++ GetSortedCompositions (VList (map VStr sample_order)) (VList [])
              (v2_config_path sample_root) reverse :: rest
       /\ List.filter (is_resolve string) rest = []
       /\ (reverse = true
           <-> subcommand (sample_args "destroy") = "destroy"%string)
       /\ (subcommand (sample_args "destroy")
           ∈ ["apply"; "console"; "import"; "output"; "plan"; "refresh";
              "show"; "taint"; "template"; "untaint"; "validate"]%string
           -> reverse = false).
Proof.
  assert (H1 : py_getitem sample_ops_config "compositions"
               = Ok sample_section) by (vm_compute; reflexivity).
  assert (H2 : py_getitem sample_section "order" = Ok sample_orders)
    by (vm_compute; reflexivity).
  assert (H3 : py_getitem sample_orders "terraform"
               = Ok (VList (map VStr sample_order)))
    by (vm_compute; reflexivity).
  assert (H4 : py_getitem sample_section "excluded_config_keys"
               = Ok (VList [])) by (vm_compute; reflexivity).
  split; [by repeat split |].
  exact (resolver_reverse_iff_destroy string sample_root sample_ops_config
           sample_resolver sample_render_ok sample_generate
           sample_status_all_zero (sample_args "destroy")
           (sample_world string None) sample_section sample_orders
           (VList (map VStr sample_order)) (VList []) H1 H2 H3 H4).
Defined.

Lemma check_ops_version_gate_witness :
  let w := sample_world string (Some (VStr "2.1.0")) in
  (conf w !! "terraform"
   = Some (VDict (<["ops_min_version" := VStr "2.1.0"]> ∅))
   /\ (<["ops_min_version" := VStr "2.1.0"]> ∅ : gmap string value)
        !! "ops_min_version" = Some (VStr "2.1.0")
   /\ dotted_version_lt "2.0.0" "2.1.0" = true)
  /\ (check_ops_version string "2.0.0" dotted_version_lt sample_repr w).1
     = Raise (VersionIncompatible "2.0.0" "2.1.0").
Proof.
  cbv zeta.
  assert (H1 : conf (sample_world string (Some (VStr "2.1.0")))
                 !! "terraform"
               = Some (VDict (<["ops_min_version" := VStr "2.1.0"]> ∅)))
    by (vm_compute; reflexivity).
  assert (H2 : (<["ops_min_version" := VStr "2.1.0"]> ∅
                : gmap string value) !! "ops_min_version"
               = Some (VStr "2.1.0")) by (vm_compute; reflexivity).
  assert (H3 : dotted_version_lt "2.0.0" "2.1.0" = true)
    by (vm_compute; reflexivity).
  split; [by repeat split |].
  apply (proj1 (check_ops_version_gate string "2.0.0" dotted_version_lt
                  sample_repr (sample_world string (Some (VStr "2.1.0"))))
           "2.0.0"%string "2.1.0"%string).
  exists (<["ops_min_version" := VStr "2.1.0"]> ∅), (VStr "2.1.0").
  by repeat split.
Defined.

Lemma run_mode_dispatch_witness :
  let w := sample_world string None in
  let gate := check_ops_version string "2.0.0" dotted_version_lt
                sample_repr in
  let run_at path :=
    run string path "/etc/terraformrc" sample_ops_config sample_fs "2.0.0"
      dotted_version_lt sample_repr sample_resolver sample_render_ok
      sample_generate sample_status_all_zero (sample_args "plan") w in
  ((gate w).1 = Ok tt
   /\ sample_fs sample_root = Some Directory
   /\ sample_fs "clusters/qe1.yaml" = Some RegularFile)
  /\ (run_at sample_root).1 = Ok (RStatus string 0)
  /\ (run_at "clusters/qe1.yaml").1
     = Ok (RCommand string (sample_generate (sample_args "plan") (conf w)))
  /\ length (List.filter (is_isdir string) (trace (run_at sample_root).2))
     = 1%nat.
Proof.
  cbv zeta.
  assert (H1 : (check_ops_version string "2.0.0" dotted_version_lt
                  sample_repr (sample_world string None)).1 = Ok tt)
    by (vm_compute; reflexivity).
  assert (H2 : sample_fs sample_root = Some Directory) by reflexivity.
  assert (H3 : sample_fs "clusters/qe1.yaml" = Some RegularFile)
    by reflexivity.
  split; [by repeat split |].
  pose proof (run_mode_dispatch string sample_root "/etc/terraformrc"
                sample_ops_config sample_fs "2.0.0" dotted_version_lt
                sample_repr sample_resolver sample_render_ok sample_generate
                sample_status_all_zero (sample_args "plan")
                (sample_world string None)) as (_ & Hrun).
  destruct (Hrun H1) as (Hdir & _ & _ & Honce). clear Hrun.
  pose proof (run_mode_dispatch string "clusters/qe1.yaml" "/etc/terraformrc"
                sample_ops_config sample_fs "2.0.0" dotted_version_lt
                sample_repr sample_resolver sample_render_ok sample_generate
                sample_status_all_zero (sample_args "plan")
                (sample_world string None)) as (_ & Hrun).
  destruct (Hrun H1) as (_ & Hfile & _ & _). clear Hrun.
  split; [| split].
  - rewrite (Hdir H2). vm_compute. reflexivity.
  - rewrite (Hfile H3). vm_compute. reflexivity.
  - exact Honce.
Defined.

Lemma environment_preparation_witness :
  let w := sample_world string None in
  let run_in (w : World string) :=
    run string sample_root "/etc/terraformrc" sample_ops_config sample_fs
      "2.0.0" dotted_version_lt sample_repr sample_resolver sample_render_ok
      sample_generate sample_status_all_zero (sample_args "plan") w in
  (check_ops_version string "2.0.0" dotted_version_lt sample_repr w).1
  = Ok tt
  /\ environ (run_in w).2 !! "TF_CLI_CONFIG_FILE"
     = Some "/etc/terraformrc"%string
  /\ exists rest,
       trace (run_in w).2
       = SetEnv "TF_CLI_CONFIG_FILE" "/etc/terraformrc" :: rest
       /\ List.filter (is_set_env string) rest = [].
Proof.
  cbv zeta.
  assert (H1 : (check_ops_version string "2.0.0" dotted_version_lt
                  sample_repr (sample_world string None)).1 = Ok tt)
    by (vm_compute; reflexivity).
  split; [exact H1 |].
  pose proof (environment_preparation string sample_root "/etc/terraformrc"
                sample_ops_config sample_fs "2.0.0" dotted_version_lt
                sample_repr sample_resolver sample_render_ok sample_generate
                sample_status_all_zero (sample_args "plan")
                (sample_world string None) H1)
    as (_ & _ & Henv & rest & Htr & Hset & _).
  split.
  - rewrite Henv. apply lookup_insert_eq.
  - exists rest. split; [exact Htr | exact Hset].
Defined.

Lemma rendering_failure_propagates_witness :
  let args := sample_args "apply" in
  let w := sample_world string None in
  let out := run_v2_compositions string sample_root
               (sample_render_fails_at 0) sample_generate
               sample_status_all_zero args sample_cp sample_tp
               sample_order w in
  (sample_order !! 0%nat = Some "network"%string
   /\ unit_render string (sample_render_fails_at 0) sample_cp sample_tp w
        0 "network" = Some (Exception "template error"))
  /\ out.1 = Raise (Exception "template error")
  /\ trace out.2
     = [LogRunning "network"; GenerateFiles sample_cp sample_tp "network"]
  /\ generated_units string (trace out.2) = ["network"]%string
  /\ executed_commands string (trace out.2) = []
  /\ List.filter (is_notice string) (trace out.2) = [].
Proof.
  cbv zeta.
  assert (H1 : sample_order !! 0%nat = Some "network"%string)
    by reflexivity.
  assert (H2 : forall i c', (i < 0)%nat -> sample_order !! i = Some c' ->
                 unit_render string (sample_render_fails_at 0) sample_cp
                   sample_tp (sample_world string None) i c' = None
                 /\ unit_status string sample_root sample_generate
                      sample_status_all_zero (sample_args "apply") sample_tp
                      (sample_world string None) i c' = 0)
    by (intros; lia).
  assert (H3 : unit_render string (sample_render_fails_at 0) sample_cp
                 sample_tp (sample_world string None) 0 "network"
               = Some (Exception "template error")) by reflexivity.
  split; [by split |].
  pose proof (rendering_failure_propagates string sample_root
                (sample_render_fails_at 0) sample_generate
                sample_status_all_zero (sample_args "apply") sample_cp
                sample_tp sample_order (sample_world string None)
                0%nat "network"%string (Exception "template error")
                H1 H2 H3) as (Hout & Htr & Hgen & Hexec & Hnotice).
  split; [exact Hout |]. split; [exact Htr |].
  rewrite Htr. by repeat split.
Defined.

(** C8, as the specification words it, fails on the code: when rendering
    the first of the three sample units raises, the run ends in that
    exception, not in an exit status. *)
Lemma render_failure_is_not_an_exit_status :
  ~ render_failure_like_exit_status string sample_root
      (sample_render_fails_at 0) sample_generate sample_status_all_zero
      (sample_args "apply") sample_cp sample_tp sample_order
      (sample_world string None).
Proof.
  intros Hclaim.
  destruct (Hclaim 0%nat "network"%string (Exception "template error"))
    as [(rc & Hrc & _) _].
  - reflexivity.
  - intros i c' Hi. lia.
  - reflexivity.
  - vm_compute in Hrc. discriminate Hrc.
Qed.

Lemma injection_frame_witness :
  let w := sample_world string (Some (VStr "2.1.0")) in
  let once := run_v2_composition string sample_root sample_generate
                (sample_args "apply") sample_tp "network" w in
  let all := run_v2_compositions string sample_root sample_render_ok
               sample_generate (sample_status_fails_at 1)
               (sample_args "apply") sample_cp sample_tp sample_order w in
  ("env"%string <> "terraform"%string /\ "env"%string <> "cluster"%string)
  /\ conf once.2 !! "terraform"
     = Some (VDict (<["variables_file" := VStr "variables.tfvars.json"]>
                      (<["path" := VStr (sample_tp +:+ "network")]> ∅)))
  /\ conf once.2 !! "cluster"
     = Some (cluster_identity sample_root)
  /\ conf once.2 !! "env" = conf w !! "env"
  /\ environ once.2 = environ w
  /\ conf all.2 !! "env" = conf w !! "env".
Proof.
  cbv zeta.
  assert (H1 : "env"%string <> "terraform"%string) by discriminate.
  assert (H2 : "env"%string <> "cluster"%string) by discriminate.
  split; [by split |].
  exact (injection_frame string sample_root sample_render_ok sample_generate
           (sample_status_fails_at 1) (sample_args "apply") sample_cp
           sample_tp sample_order "network"%string
           (sample_world string (Some (VStr "2.1.0"))) "env"%string H1 H2).
Defined.

(** *** The further properties at the sample run *)

(** The identity is taken from the path as given, the configuration path
    from the normalised one: a trailing separator keeps the latter and
    changes the former. *)
Example trailing_separator_changes_identity :
  v2_config_path "data/cluster=demo/" = v2_config_path "data/cluster=demo"
  /\ cluster_id "data/cluster=demo/" <> cluster_id "data/cluster=demo".
Proof. split; [reflexivity |]. vm_compute. discriminate. Qed.

Lemma single_unit_mode_returns_command_witness :
  let w := sample_world string None in
  let out := run string "nowhere" "/etc/terraformrc" sample_ops_config
               sample_fs "2.0.0" dotted_version_lt sample_repr
               sample_resolver sample_render_ok sample_generate
               sample_status_all_zero (sample_args "plan") w in
  ((check_ops_version string "2.0.0" dotted_version_lt sample_repr w).1
   = Ok tt
   /\ sample_fs "nowhere" <> Some Directory)
  /\ out.1 = Ok (RCommand string (sample_generate (sample_args "plan")
                                    (conf w)))
  /\ executed_commands string (trace out.2) = []
  /\ generated_units string (trace out.2) = []
  /\ conf out.2 = conf w.
Proof.
  cbv zeta.
  assert (H1 : (check_ops_version string "2.0.0" dotted_version_lt
                  sample_repr (sample_world string None)).1 = Ok tt)
    by (vm_compute; reflexivity).
  assert (H2 : sample_fs "nowhere" <> Some Directory) by discriminate.
  split; [by split |].
  pose proof (single_unit_mode_returns_command string "nowhere"
                "/etc/terraformrc" sample_ops_config sample_fs "2.0.0"
                dotted_version_lt sample_repr sample_resolver
                sample_render_ok sample_generate sample_status_all_zero
                (sample_args "plan") (sample_world string None) H1 H2)
    as (Hout & _ & Hexec & Hgen & Hconf).
  by repeat split.
Defined.

Lemma missing_settings_raise_witness :
  let w := sample_world string None in
  (VDict ∅ = VDict ∅
   /\ (∅ : gmap string value) !! "compositions" = None)
  /\ run_v2_integration string sample_root (VDict ∅) sample_resolver
       sample_render_ok sample_generate sample_status_all_zero
       (sample_args "plan") w
     = (Raise (KeyError "compositions"), w).
Proof.
  cbv zeta.
  assert (H1 : VDict ∅ = VDict ∅) by reflexivity.
  assert (H2 : (∅ : gmap string value) !! "compositions" = None)
    by reflexivity.
  split; [by split |].
  exact (proj1 (missing_settings_raise string sample_root (VDict ∅)
                  sample_resolver sample_render_ok sample_generate
                  sample_status_all_zero (sample_args "plan")
                  (sample_world string None) ∅ H1) H2).
Defined.

Lemma run_frame_witness :
  let w := sample_world string None in
  let out := run string sample_root "/etc/terraformrc" sample_ops_config
               sample_fs "2.0.0" dotted_version_lt sample_repr
               sample_resolver sample_render_ok sample_generate
               (sample_status_fails_at 1) (sample_args "apply") w in
  ("HOME"%string <> "TF_CLI_CONFIG_FILE"%string
   /\ "env"%string <> "terraform"%string
   /\ "env"%string <> "cluster"%string)
  /\ environ out.2 !! "HOME" = environ w !! "HOME"
  /\ conf out.2 !! "env" = conf w !! "env".
Proof.
  cbv zeta.
  assert (H1 : "HOME"%string <> "TF_CLI_CONFIG_FILE"%string)
    by discriminate.
  assert (H2 : "env"%string <> "terraform"%string) by discriminate.
  assert (H3 : "env"%string <> "cluster"%string) by discriminate.
  split; [by repeat split |].
  exact (run_frame string sample_root "/etc/terraformrc" sample_ops_config
           sample_fs "2.0.0" dotted_version_lt sample_repr sample_resolver
           sample_render_ok sample_generate (sample_status_fails_at 1)
           (sample_args "apply") (sample_world string None)
           "HOME"%string "env"%string H1 H2 H3).
Defined.

Lemma check_ops_version_malformed_section_witness :
  let w : World string :=
    {| environ := ∅; conf := <["terraform" := VNone]> ∅; trace := [] |} in
  conf w !! "terraform" = Some VNone
  /\ check_ops_version string "2.0.0" dotted_version_lt sample_repr w
     = (Raise TypeError, w).
Proof.
  cbv zeta.
  assert (H1 : conf ({| environ := ∅; conf := <["terraform" := VNone]> ∅;
                        trace := [] |} : World string) !! "terraform"
               = Some VNone) by (vm_compute; reflexivity).
  split; [exact H1 |].
  exact (check_ops_version_malformed_section string "2.0.0"
           dotted_version_lt sample_repr _ VNone H1).
Defined.

Lemma run_multi_unit_outcome_witness :
  let w := sample_world string None in
  let run_with status :=
    run string sample_root "/etc/terraformrc" sample_ops_config sample_fs
      "2.0.0" dotted_version_lt sample_repr sample_resolver
      sample_render_ok sample_generate status (sample_args "apply") w in
  ((check_ops_version string "2.0.0" dotted_version_lt sample_repr w).1
   = Ok tt
   /\ sample_fs sample_root = Some Directory
   /\ py_getitem sample_ops_config "compositions" = Ok sample_section
   /\ py_getitem sample_section "order" = Ok sample_orders
   /\ py_getitem sample_orders "terraform"
      = Ok (VList (map VStr sample_order))
   /\ py_getitem sample_section "excluded_config_keys" = Ok (VList [])
   /\ sample_resolver (VList (map VStr sample_order)) (VList [])
        (v2_config_path sample_root) (String.eqb "destroy" "apply") <> [])
  /\ ((run_with sample_status_all_zero).1 = Ok (RStatus string 0)
      /\ generated_units string (trace (run_with sample_status_all_zero).2)
         = sample_order)
  /\ ((run_with (sample_status_fails_at 1)).1 = Ok (RStatus string 1)
      /\ generated_units string
           (trace (run_with (sample_status_fails_at 1)).2)
         = ["network"; "compute"]%string
      /\ skipped_units string
           (trace (run_with (sample_status_fails_at 1)).2)
         = ["data"]%string).
Proof.
  cbv zeta.
  assert (H1 : (check_ops_version string "2.0.0" dotted_version_lt
                  sample_repr (sample_world string None)).1 = Ok tt)
    by (vm_compute; reflexivity).
  assert (H2 : sample_fs sample_root = Some Directory) by reflexivity.
  assert (H3 : py_getitem sample_ops_config "compositions"
               = Ok sample_section) by (vm_compute; reflexivity).
  assert (H4 : py_getitem sample_section "order" = Ok sample_orders)
    by (vm_compute; reflexivity).
  assert (H5 : py_getitem sample_orders "terraform"
               = Ok (VList (map VStr sample_order)))
    by (vm_compute; reflexivity).
  assert (H6 : py_getitem sample_section "excluded_config_keys"
               = Ok (VList [])) by (vm_compute; reflexivity).
  assert (H7 : sample_resolver (VList (map VStr sample_order)) (VList [])
                 (v2_config_path sample_root)
                 (String.eqb "destroy"
                    (subcommand (sample_args "apply"))) <> [])
    by (vm_compute; discriminate).
  split; [by repeat split |].
  split.
  - destruct (run_multi_unit_outcome string sample_root "/etc/terraformrc"
                sample_ops_config sample_fs "2.0.0" dotted_version_lt
                sample_repr sample_resolver sample_render_ok sample_generate
                sample_status_all_zero (sample_args "apply")
                (sample_world string None) sample_section sample_orders
                (VList (map VStr sample_order)) (VList [])
                H1 H2 H3 H4 H5 H6 H7) as [Hall _].
    { intros; reflexivity. }
    destruct Hall as (Hout & _ & Hgen).
    { intros; reflexivity. }
    split; [exact Hout | exact Hgen].
  - destruct (run_multi_unit_outcome string sample_root "/etc/terraformrc"
                sample_ops_config sample_fs "2.0.0" dotted_version_lt
                sample_repr sample_resolver sample_render_ok sample_generate
                (sample_status_fails_at 1) (sample_args "apply")
                (sample_world string None) sample_section sample_orders
                (VList (map VStr sample_order)) (VList [])
                H1 H2 H3 H4 H5 H6 H7) as [_ Hfail].
    { intros; reflexivity. }
    destruct (Hfail 1%nat "compute"%string) as (Hout & _ & Hgen & Hskip).
    { reflexivity. }
    { intros i c' Hi _. destruct i; [reflexivity | lia]. }
    { vm_compute. discriminate. }
    split; [exact Hout |]. split; [exact Hgen | exact Hskip].
Defined.

Lemma destroy_reverses_apply_witness :
  let w := sample_world string None in
  let run_with subcmd :=
    run string sample_root "/etc/terraformrc" sample_ops_config sample_fs
      "2.0.0" dotted_version_lt sample_repr sample_resolver
      sample_render_ok sample_generate sample_status_all_zero
      (sample_args subcmd) w in
  ("apply"%string <> "destroy"%string
   /\ sample_resolver (VList (map VStr sample_order)) (VList [])
        (v2_config_path sample_root) true
      = rev (sample_resolver (VList (map VStr sample_order)) (VList [])
               (v2_config_path sample_root) false)
   /\ sample_resolver (VList (map VStr sample_order)) (VList [])
        (v2_config_path sample_root) false <> [])
  /\ (run_with "apply"%string).1 = Ok (RStatus string 0)
  /\ (run_with "destroy"%string).1 = Ok (RStatus string 0)
  /\ generated_units string (trace (run_with "apply"%string).2)
     = ["network"; "compute"; "data"]%string
  /\ generated_units string (trace (run_with "destroy"%string).2)
     = ["data"; "compute"; "network"]%string.
Proof.
  cbv zeta.
  assert (H1 : (check_ops_version string "2.0.0" dotted_version_lt
                  sample_repr (sample_world string None)).1 = Ok tt)
    by (vm_compute; reflexivity).
  assert (H2 : sample_fs sample_root = Some Directory) by reflexivity.
  assert (H3 : py_getitem sample_ops_config "compositions"
               = Ok sample_section) by (vm_compute; reflexivity).
  assert (H4 : py_getitem sample_section "order" = Ok sample_orders)
    by (vm_compute; reflexivity).
  assert (H5 : py_getitem sample_orders "terraform"
               = Ok (VList (map VStr sample_order)))
    by (vm_compute; reflexivity).
  assert (H6 : py_getitem sample_section "excluded_config_keys"
               = Ok (VList [])) by (vm_compute; reflexivity).
  assert (H7 : subcommand (sample_args "apply") <> "destroy"%string)
    by discriminate.
  assert (H8 : subcommand (sample_args "destroy") = "destroy"%string)
    by reflexivity.
  assert (H9 : sample_resolver (VList (map VStr sample_order)) (VList [])
                 (v2_config_path sample_root) true
               = rev (sample_resolver (VList (map VStr sample_order))
                        (VList []) (v2_config_path sample_root) false))
    by reflexivity.
  assert (H10 : sample_resolver (VList (map VStr sample_order)) (VList [])
                  (v2_config_path sample_root) false <> [])
    by (vm_compute; discriminate).
  split; [by repeat split |].
  apply (destroy_reverses_apply string sample_root "/etc/terraformrc"
           sample_ops_config sample_fs "2.0.0" dotted_version_lt
           sample_repr sample_resolver sample_render_ok sample_generate
           sample_status_all_zero (sample_args "apply")
           (sample_args "destroy") (sample_world string None)
           sample_section sample_orders (VList (map VStr sample_order))
           (VList []) H1 H2 H3 H4 H5 H6 H7 H8 H9 H10).
  - intros; split; reflexivity.
  - intros; split; reflexivity.
Defined.
